(** * pdfCropMargins: the page cache over PyMuPDF ([pymupdf_routines.py])

    A shallow embedding of the class [DocumentPages] of
    [src/pdfCropMargins/pymupdf_routines.py] and the properties of its
    operations.

    Conventions of the embedding.
    - Python numbers that take part in the page geometry (floats, and the
      integers mixed with them) are rationals [Q] with exact arithmetic;
      a division whose divisor is zero raises [ZeroDivisionError], as in
      Python.  Numeric equality ([==] of Python) is [Qeq].
    - The object and the world it acts on (the files PyMuPDF can open, the
      standard error stream, and a ghost log of the display lists PyMuPDF has
      been asked to build) are threaded explicitly through a state monad
      whose outcomes are a returned value, a raised exception, or the
      termination of the process.
    - PyMuPDF ([fitz]) is not part of the repository.  Its values are
      modelled as plain data: a render request is the record of the arguments
      it was called with.  What the library does with a request (the pixels,
      a refusal of a request it cannot render, messages of its own) is outside
      the embedding: the results below are the requests the methods make and
      the values they hand back when the library serves them.
    - The point of a zoom directive is passed by value.  [get_page] moves
      the caller's point object in place (lines 142-148); its coordinates
      afterwards are those of the returned position, so a later call that
      reuses the object is a call with the returned position. *)

From Stdlib Require Import ZArith QArith Qminmax Qabs String Ascii Lia Lqa.
From stdpp Require Import base option list.

Local Open Scope Z_scope.

(** ** Python values *)

(** Exception classes.  [Subclass name base] is a class derived from
    [base]; [except RuntimeError] also catches the classes derived from
    [RuntimeError]. *)
Inductive PyExc : Type :=
  | RuntimeError
  | ValueError
  | TypeError
  | IndexError
  | AttributeError
  | ZeroDivisionError
  | OSError
  | KeyboardInterrupt
  | Subclass (name : string) (base : PyExc).

Fixpoint is_RuntimeError (e : PyExc) : bool :=
  match e with
  | RuntimeError => true
  | Subclass _ base => is_RuntimeError base
  | _ => false
  end.

(** What a call can do: return, raise, or end the process. *)
Inductive Outcome (A : Type) : Type :=
  | Return (a : A)
  | Raise (e : PyExc)
  | Exit (code : Z).
Arguments Return {A} a.
Arguments Raise {A} e.
Arguments Exit {A} code.

(** Sequencing of computations that touch no state. *)
Definition and_then {A B} (o : Outcome A) (k : A -> Outcome B) : Outcome B :=
  match o with
  | Return v => k v
  | Raise exc => Raise exc
  | Exit code => Exit code
  end.

(** Python's [<] and the two-argument steps of the built-in [min] and [max]:
    both keep the first of several equal candidates. *)
Definition Qltb (a b : Q) : bool := negb (Qle_bool b a).
Definition py_min (a b : Q) : Q := if Qltb b a then b else a.
Definition py_max (a b : Q) : Q := if Qltb a b then b else a.

(** [a / b] *)
Definition py_div (a b : Q) : Outcome Q :=
  if Qeq_bool b 0 then Raise ZeroDivisionError else Return (a / b)%Q.

(** Index of a Python sequence of length [len]: negative indices count from
    the end, anything outside [-len, len) is an [IndexError]. *)
Definition py_index (len : nat) (i : Z) : option nat :=
  if (0 <=? i) && (i <? Z.of_nat len) then Some (Z.to_nat i)
  else if (- Z.of_nat len <=? i) && (i <? 0) then Some (Z.to_nat (i + Z.of_nat len))
  else None.

Definition py_getitem {A} (l : list A) (i : Z) : Outcome A :=
  match py_index (length l) i with
  | Some n => match l !! n with Some v => Return v | None => Raise IndexError end
  | None => Raise IndexError
  end.

Definition py_setitem {A} (l : list A) (i : Z) (v : A) : Outcome (list A) :=
  match py_index (length l) i with
  | Some n => Return (<[n:=v]> l)
  | None => Raise IndexError
  end.

(** ** The part of PyMuPDF the class uses *)
Module fitz.

Record Point : Type := mkPoint { x : Q; y : Q }.

Record Rect : Type := mkRect { x0 : Q; y0 : Q; x1 : Q; y1 : Q }.

Definition width (r : Rect) : Q := Qabs (x1 r - x0 r).
Definition height (r : Rect) : Q := Qabs (y1 r - y0 r).
Definition tl (r : Rect) : Point := mkPoint (x0 r) (y0 r).

(** [fitz.Rect(top_left, x1, y1)] *)
Definition Rect_at (top_left : Point) (right bottom : Q) : Rect :=
  mkRect (x top_left) (y top_left) right bottom.

Record Matrix : Type := mkMatrix { a : Q; b : Q; c : Q; d : Q; e : Q; f : Q }.

(** [fitz.Matrix(zoom_x, zoom_y)] *)
Definition Matrix_scale (zoom_x zoom_y : Q) : Matrix :=
  mkMatrix zoom_x 0 0 zoom_y 0 0.

Definition Identity : Matrix := Matrix_scale 1 1.

(** [m * n] *)
Definition Matrix_mul (m n : Matrix) : Matrix :=
  mkMatrix (a m * a n + b m * c n) (a m * b n + b m * d n)
           (c m * a n + d m * c n) (c m * b n + d m * d n)
           (e m * a n + f m * c n + e n) (e m * b n + f m * d n + f n).

Inductive Colorspace : Type := csGRAY | csRGB.

Record Page : Type := mkPage { page_rect : Rect; page_content : nat }.

Record DisplayList : Type := mkDisplayList { rect : Rect; list_content : nat }.

Definition getDisplayList (p : Page) : DisplayList :=
  mkDisplayList (page_rect p) (page_content p).

Record Pixmap : Type := mkPixmap {
  pixmap_source : DisplayList;
  pixmap_matrix : Matrix;
  pixmap_colorspace : Colorspace;
  pixmap_clip : option Rect;
  pixmap_alpha : bool }.

(** [display_list.getPixmap(matrix=, colorspace=, clip=, alpha=)].  The
    library's defaults are [colorspace=csRGB] and [clip=None] (the whole
    page). *)
Definition getPixmap (dl : DisplayList) (matrix : Matrix)
    (colorspace : Colorspace) (clip : option Rect) (alpha : bool) : Pixmap :=
  mkPixmap dl matrix colorspace clip alpha.

Record ImageData : Type := mkImageData { image_format : string; image_of : Pixmap }.

(** [pixmap.getImageData(format)] *)
Definition getImageData (format : string) (p : Pixmap) : ImageData :=
  mkImageData format p.

Record Document : Type := mkDocument { pages : list Page; is_closed : bool }.

(** The reply of [fitz.open] for a path. *)
Inductive OpenReply : Type :=
  | Opened (doc_pages : list Page)
  | OpenRaises (exc : PyExc).

(** [len(document)] *)
Definition len (doc : Document) : nat := length (pages doc).

(** [document[page_num]]: a closed document refuses the access. *)
Definition getitem (doc : Document) (page_num : Z) : Outcome Page :=
  if is_closed doc then Raise ValueError else py_getitem (pages doc) page_num.

(** [document.close()] *)
Definition close (doc : Document) : Outcome Document :=
  if is_closed doc then Raise ValueError else Return (mkDocument (pages doc) true).

End fitz.

(** ** The object, the world, and the monad of the methods *)

(** The two call sites that build a display list, one per cache. *)
Inductive CacheId : Type := DisplayListCache | CropImageListCache.

#[global] Instance CacheId_eq_dec : EqDecision CacheId.
Proof. solve_decision. Defined.

Record DocumentPages : Type := mkDocumentPages {
  document : option fitz.Document;   (* [None]: the attribute is not set yet *)
  num_pages : nat;
  page_display_list_cache : list (option fitz.DisplayList);
  page_crop_image_list_cache : list (option fitz.DisplayList) }.

Record World : Type := mkWorld {
  files : string -> fitz.OpenReply;
  stderr : string;
  materialized : list (CacheId * nat) }.   (* ghost: [getDisplayList] calls, newest first *)

Record State : Type := mkState { self : DocumentPages; world : World }.

Definition M (A : Type) : Type := State -> Outcome A * State.

Definition ret {A} (v : A) : M A := fun st => (Return v, st).

Definition bind {A B} (m : M A) (k : A -> M B) : M B :=
  fun st =>
    match m st with
    | (Return v, st') => k v st'
    | (Raise exc, st') => (Raise exc, st')
    | (Exit code, st') => (Exit code, st')
    end.

Declare Scope py_scope.
Delimit Scope py_scope with py.
Notation "'let*' x ':=' m 'in' k" := (bind m (fun x => k))
  (at level 10, x name, m at level 100, k at level 200) : py_scope.
Notation "m ';;' k" := (bind m (fun _ => k))
  (at level 100, k at level 200, right associativity) : py_scope.
Local Open Scope py_scope.

(** A pure computation that may raise. *)
Definition lift {A} (o : Outcome A) : M A := fun st => (o, st).

Definition raise {A} (exc : PyExc) : M A := lift (Raise exc).

(** [try: body  except RuntimeError: handler] *)
Definition try_except_RuntimeError {A} (body handler : M A) : M A :=
  fun st =>
    match body st with
    | (Raise exc, st') => if is_RuntimeError exc then handler st' else (Raise exc, st')
    | r => r
    end.

Definition get_self : M DocumentPages := fun st => (Return (self st), st).

Definition modify_self (upd : DocumentPages -> DocumentPages) : M unit :=
  fun st => (Return tt, mkState (upd (self st)) (world st)).

(** Reading [self.document]. *)
Definition get_document : M fitz.Document :=
  let* o := get_self in
  match document o with
  | Some doc => ret doc
  | None => raise AttributeError
  end.

Definition set_document (doc : fitz.Document) : M unit :=
  modify_self (fun o => mkDocumentPages (Some doc) (num_pages o)
     (page_display_list_cache o) (page_crop_image_list_cache o)).

Definition set_num_pages (n : nat) : M unit :=
  modify_self (fun o => mkDocumentPages (document o) n
     (page_display_list_cache o) (page_crop_image_list_cache o)).

Definition set_page_display_list_cache (l : list (option fitz.DisplayList)) : M unit :=
  modify_self (fun o => mkDocumentPages (document o) (num_pages o)
     l (page_crop_image_list_cache o)).

Definition set_page_crop_image_list_cache (l : list (option fitz.DisplayList)) : M unit :=
  modify_self (fun o => mkDocumentPages (document o) (num_pages o)
     (page_display_list_cache o) l).

(** [fitz.open(doc_fname)] *)
Definition fitz_open (doc_fname : string) : M fitz.Document :=
  fun st =>
    match files (world st) doc_fname with
    | fitz.Opened doc_pages => (Return (fitz.mkDocument doc_pages false), st)
    | fitz.OpenRaises exc => (Raise exc, st)
    end.

(** [print(text, file=sys.stderr)] *)
Definition nl : string := String (ascii_of_nat 10) EmptyString.

Definition print_stderr (text : string) : M unit :=
  fun st => (Return tt,
    mkState (self st)
      (mkWorld (files (world st)) (stderr (world st) ++ text ++ nl)
               (materialized (world st)))).

(** [page.getDisplayList()], recorded in the ghost log with the call site
    and the position of the page in the document. *)
Definition getDisplayList_logged (site : CacheId) (n : nat) (p : fitz.Page)
  : M fitz.DisplayList :=
  fun st => (Return (fitz.getDisplayList p),
    mkState (self st)
      (mkWorld (files (world st)) (stderr (world st))
               ((site, n) :: materialized (world st)))).

(** ** [external_program_calls] *)
Module ex.

(** Modelled from the spec: [cleanup_and_exit] lives in
    [external_program_calls.py], which is not among the sources.  The spec
    (section 6, process exit) gives it as a facility that accepts an exit
    code, terminates the process with that status and never returns. *)
Definition cleanup_and_exit {A} (exit_code : Z) : M A :=
  fun st => (Exit exit_code, st).

End ex.

(** ** The class [DocumentPages] *)

(** [clear_cache] (lines 55-59) *)
Definition clear_cache : M unit :=
  set_num_pages 0 ;;
  set_page_display_list_cache [] ;;
  set_page_crop_image_list_cache [].

(** [DocumentPages()]: [__init__] (lines 52-53) runs [clear_cache] on the new
    object, whose [document] attribute stays unset. *)
Definition new_DocumentPages (w : World) : State :=
  snd (clear_cache (mkState (mkDocumentPages None 0 [] []) w)).

(** The text printed when the document cannot be read (lines 66-70). *)
Definition diagnostic (doc_fname : string) : string :=
  (nl ++ "Error in pdfCropMargins: The PyMuPDF program could not read"
      ++ " the document" ++ nl ++ "   '" ++ doc_fname ++ "'" ++ nl
      ++ "in order to display it in the GUI.   If you have"
      ++ " Ghostscript installed" ++ nl
      ++ "consider running pdfCropMargins with the"
      ++ " '--gsFix' option to attempt to repair it.")%string.

(** [open_document] (lines 61-75) *)
Definition open_document (doc_fname : string) : M nat :=
  try_except_RuntimeError
    (let* doc := fitz_open doc_fname in set_document doc)
    (print_stderr (diagnostic doc_fname) ;; ex.cleanup_and_exit 1) ;;
  let* doc := get_document in
  set_num_pages (fitz.len doc) ;;
  let* o := get_self in
  set_page_display_list_cache (replicate (num_pages o) None) ;;
  let* o := get_self in
  set_page_crop_image_list_cache (replicate (num_pages o) None) ;;
  let* o := get_self in
  ret (num_pages o).

(** [close_document] (lines 77-80): [close()] acts on the document object
    the attribute refers to. *)
Definition close_document : M unit :=
  let* doc := get_document in
  let* closed := lift (fitz.close doc) in
  set_document closed ;;
  clear_cache.

(** Ghost: the position of [document[page_num]] in the document. *)
Definition position (doc : fitz.Document) (page_num : Z) : nat :=
  default 0%nat (py_index (fitz.len doc) page_num).

(** An attribute or method of a cache entry: [None] has none. *)
Definition deref (entry : option fitz.DisplayList) : M fitz.DisplayList :=
  match entry with
  | Some dl => ret dl
  | None => raise AttributeError
  end.

(** [get_page_ppm_for_crop] (lines 82-109) *)
Definition get_page_ppm_for_crop (page_num : Z) : M fitz.ImageData :=
  let colorspace := fitz.csGRAY in
  let* o := get_self in
  let* page_crop_image_list :=
    lift (py_getitem (page_crop_image_list_cache o) page_num) in
  let* page_crop_image_list :=
    match page_crop_image_list with
    | None =>   (* [if not page_crop_image_list:] *)
        let* doc := get_document in
        let* page := lift (fitz.getitem doc page_num) in
        let* dl := getDisplayList_logged CropImageListCache (position doc page_num) page in
        let* o := get_self in
        let* l := lift (py_setitem (page_crop_image_list_cache o) page_num (Some dl)) in
        set_page_crop_image_list_cache l ;;
        let* o := get_self in
        lift (py_getitem (page_crop_image_list_cache o) page_num)
    | Some dl => ret (Some dl)
    end in
  let* dl := deref page_crop_image_list in
  let pixmap := fitz.getPixmap dl fitz.Identity colorspace None false in
  let image_ppm := fitz.getImageData "ppm" pixmap in
  ret image_ppm.

(** The local [zoom_0] of [get_page] (lines 131-135). *)
Definition zoom_0 (window_size : option (Q * Q)) (rect : fitz.Rect) : Outcome Q :=
  match window_size with
  | None => Return 1%Q
  | Some (w0, w1) =>
      and_then (py_div w0 (fitz.width rect)) (fun r0 =>
      and_then (py_div w1 (fitz.height rect)) (fun r1 =>
      let zoom_0 := py_min (py_min 1 r0) r1 in
      if Qeq_bool zoom_0 1 then
        and_then (py_div w0 (fitz.width rect)) (fun r0 =>
        and_then (py_div w1 (fitz.height rect)) (fun r1 =>
        Return (py_min r0 r1)))
      else Return zoom_0))
  end.

(** The top-left point [tl] after lines 142-148: the old top-left moved by
    a quarter of the page in the direction of the arrow key and brought back
    into the page.  [tl] is the caller's point object [zoom[0]], updated in
    place; these are its coordinates afterwards, and [fitz.Rect] copies them
    into the clip rectangle. *)
Definition zoom_tl (rect : fitz.Rect) (zoom : fitz.Point * Z * Z) : fitz.Point :=
  let '(old_tl, dx, dy) := zoom in
  let w2 := (fitz.width rect / 2)%Q in
  let h2 := (fitz.height rect / 2)%Q in
  let tl_x := (fitz.x old_tl + inject_Z dx * (w2 / 2))%Q in
  let tl_x := py_max 0 tl_x in
  let tl_x := py_min w2 tl_x in
  let tl_y := (fitz.y old_tl + inject_Z dy * (h2 / 2))%Q in
  let tl_y := py_max 0 tl_y in
  let tl_y := py_min h2 tl_y in
  fitz.mkPoint tl_x tl_y.

(** The local [clip] of [get_page] when it returns (lines 128, 139-149).
    The assignment of line 141 is overwritten by line 149 before any use. *)
Definition page_clip (rect : fitz.Rect)
    (zoom : option (fitz.Point * Z * Z)) : fitz.Rect :=
  match zoom with
  | Some z =>
      let w2 := (fitz.width rect / 2)%Q in
      let h2 := (fitz.height rect / 2)%Q in
      let tl := zoom_tl rect z in
      fitz.Rect_at tl (fitz.x tl + w2) (fitz.y tl + h2)
  | None => rect
  end.

(** [get_page] (lines 111-160).  The point [zoom[0]] comes in by value;
    the object the caller holds ends with the coordinates of the returned
    position (see [zoom_tl]). *)
Definition get_page (page_num : Z) (window_size : option (Q * Q))
    (zoom : option (fitz.Point * Z * Z)) (fit_screen : bool)
  : M (fitz.ImageData * fitz.Point) :=
  let zoom_x := 1%Q in
  let zoom_y := 1%Q in
  let scale := fitz.Matrix_scale zoom_x zoom_y in
  let* o := get_self in
  let* page_display_list :=
    lift (py_getitem (page_display_list_cache o) page_num) in
  let* page_display_list :=
    match page_display_list with
    | None =>   (* [if not page_display_list:] *)
        let* doc := get_document in
        let* page := lift (fitz.getitem doc page_num) in
        let* dl := getDisplayList_logged DisplayListCache (position doc page_num) page in
        let* o := get_self in
        let* l := lift (py_setitem (page_display_list_cache o) page_num (Some dl)) in
        set_page_display_list_cache l ;;
        let* o := get_self in
        lift (py_getitem (page_display_list_cache o) page_num)
    | Some dl => ret (Some dl)
    end in
  let* dl := deref page_display_list in
  let rect := fitz.rect dl in
  let* zoom_0 := lift (zoom_0 window_size rect) in
  let mat_0 := fitz.Matrix_scale zoom_0 zoom_0 in
  let clip := page_clip rect zoom in
  let* pixmap :=
    match zoom with
    | Some _ =>
        let mat := fitz.Matrix_mul mat_0 (fitz.Matrix_scale 2 2) in
        ret (fitz.getPixmap dl mat fitz.csRGB (Some clip) false)
    | None =>
        ret (fitz.getPixmap dl mat_0 fitz.csRGB None false)
    end in
  let image_ppm := fitz.getImageData "ppm" pixmap in
  ret (image_ppm, fitz.tl clip).

(** ** Sequences of calls *)

Inductive Op : Type :=
  | OpClearCache
  | OpOpenDocument (doc_fname : string)
  | OpCloseDocument
  | OpGetPagePpmForCrop (page_num : Z)
  | OpGetPage (page_num : Z) (window_size : option (Q * Q))
      (zoom : option (fitz.Point * Z * Z)) (fit_screen : bool).

(** Whether the process goes on after a call: it does after a return, and
    after an exception too (the caller may handle it). *)
Definition goes_on {A} (r : Outcome A) : bool :=
  match r with Exit _ => false | _ => true end.

Definition step (op : Op) (st : State) : bool * State :=
  match op with
  | OpClearCache => let r := clear_cache st in (goes_on (fst r), snd r)
  | OpOpenDocument doc_fname =>
      let r := open_document doc_fname st in (goes_on (fst r), snd r)
  | OpCloseDocument => let r := close_document st in (goes_on (fst r), snd r)
  | OpGetPagePpmForCrop page_num =>
      let r := get_page_ppm_for_crop page_num st in (goes_on (fst r), snd r)
  | OpGetPage page_num window_size zoom fit_screen =>
      let r := get_page page_num window_size zoom fit_screen st in
      (goes_on (fst r), snd r)
  end.

(** The state after a sequence of calls; nothing is called after the process
    has ended. *)
Fixpoint run (ops : list Op) (st : State) : State :=
  match ops with
  | [] => st
  | op :: ops' =>
      match step op st with
      | (true, st') => run ops' st'
      | (false, st') => st'
      end
  end.

(** The two page-rendering operations. *)
Definition is_render (op : Op) : bool :=
  match op with
  | OpGetPagePpmForCrop _ | OpGetPage _ _ _ _ => true
  | _ => false
  end.

Definition cache (site : CacheId) (o : DocumentPages) : list (option fitz.DisplayList) :=
  match site with
  | DisplayListCache => page_display_list_cache o
  | CropImageListCache => page_crop_image_list_cache o
  end.

Definition set_cache (site : CacheId) (l : list (option fitz.DisplayList))
    (o : DocumentPages) : DocumentPages :=
  match site with
  | DisplayListCache =>
      mkDocumentPages (document o) (num_pages o) l (page_crop_image_list_cache o)
  | CropImageListCache =>
      mkDocumentPages (document o) (num_pages o) (page_display_list_cache o) l
  end.

(** The cache and the argument [page_num] of a page-rendering call. *)
Definition target (op : Op) : option (CacheId * Z) :=
  match op with
  | OpGetPagePpmForCrop page_num => Some (CropImageListCache, page_num)
  | OpGetPage page_num _ _ _ => Some (DisplayListCache, page_num)
  | _ => None
  end.

(** ** States of the life cycle *)

(** A document is open: the attribute is set and [close()] has not been
    called on it. *)
Definition is_open (st : State) : bool :=
  match document (self st) with
  | Some doc => negb (fitz.is_closed doc)
  | None => false
  end.

(** The page at a position of the document the object holds. *)
Definition page_at (st : State) (n : nat) : option fitz.Page :=
  match document (self st) with
  | Some doc => fitz.pages doc !! n
  | None => None
  end.

(** Both caches have [num_pages] entries, and none without an open
    document. *)
Definition sized (st : State) : Prop :=
  length (page_display_list_cache (self st)) = num_pages (self st)
  /\ length (page_crop_image_list_cache (self st)) = num_pages (self st)
  /\ (is_open st = false -> num_pages (self st) = 0%nat).

(** A cache of a document holds, in a filled slot, the display list of the
    page at that position. *)
Definition coherent (doc : fitz.Document) (l : list (option fitz.DisplayList)) : Prop :=
  length l = fitz.len doc
  /\ forall n dl, l !! n = Some (Some dl) ->
       exists p, fitz.pages doc !! n = Some p /\ dl = fitz.getDisplayList p.

(** The states between a successful [open_document] and the next
    [close_document]. *)
Definition opened (st : State) : Prop :=
  exists doc,
    document (self st) = Some doc
    /\ fitz.is_closed doc = false
    /\ num_pages (self st) = fitz.len doc
    /\ coherent doc (page_display_list_cache (self st))
    /\ coherent doc (page_crop_image_list_cache (self st)).

(** The effect of the [if not ...:] block of a rendering call on slot [n] of
    its cache: an empty slot receives the display list of page [p] and the
    call is logged; a filled slot is left alone. *)
Definition fill (site : CacheId) (n : nat) (p : fitz.Page) (st : State) : State :=
  match cache site (self st) !! n with
  | Some None =>
      mkState
        (set_cache site (<[n:=Some (fitz.getDisplayList p)]> (cache site (self st)))
           (self st))
        (mkWorld (files (world st)) (stderr (world st))
           ((site, n) :: materialized (world st)))
  | _ => st
  end.

(** What holds of the log and the caches since the document was opened with
    [N] pages and the log was [base]: every display list built since then
    sits in its slot, and no slot was filled twice. *)
Definition once_per_slot (N : nat) (base : list (CacheId * nat)) (st : State) : Prop :=
  opened st
  /\ num_pages (self st) = N
  /\ exists new,
       materialized (world st) = new ++ base
       /\ NoDup new
       /\ forall site n,
            (site, n) ∈ new <-> exists dl, cache site (self st) !! n = Some (Some dl).

(** What a rendering call can change of the object: the contents of slots,
    never the document, the page count or the length of a cache. *)
Definition same_shape (st st' : State) : Prop :=
  document (self st') = document (self st)
  /\ num_pages (self st') = num_pages (self st)
  /\ length (page_display_list_cache (self st'))
     = length (page_display_list_cache (self st))
  /\ length (page_crop_image_list_cache (self st'))
     = length (page_crop_image_list_cache (self st)).

(** [needle] occurs in [hay]. *)
Definition contains (needle hay : string) : Prop :=
  exists pre post, hay = (pre ++ needle ++ post)%string.

(** The base fit-scale in the words of the specification: [min(1, Vw/W,
    Vh/H)], except when that value equals exactly 1, in which case
    [min(Vw/W, Vh/H)]. *)
Definition fit_scale_spec (W H Vw Vh : Q) : Q :=
  let floored := Qmin 1 (Qmin (Vw / W) (Vh / H)) in
  if Qeq_bool floored 1 then Qmin (Vw / W) (Vh / H) else floored.

(** [v] clamped to the interval from [lo] to [hi]. *)
Definition clamp (lo hi v : Q) : Q := Qmin hi (Qmax lo v).

(** ** A small world to run the methods in *)
Module Example.

Definition letter : fitz.Page := fitz.mkPage (fitz.mkRect 0 0 612 792) 1.
Definition card : fitz.Page := fitz.mkPage (fitz.mkRect 0 0 200 100) 2.

Definition disk (name : string) : fitz.OpenReply :=
  if String.eqb name "a.pdf" then fitz.Opened [letter; card]
  else if String.eqb name "b.pdf" then fitz.Opened [card]
  else if String.eqb name "damaged.pdf" then fitz.OpenRaises RuntimeError
  else fitz.OpenRaises OSError.

Definition boot : State := new_DocumentPages (mkWorld disk "" []).

(** After [open_document("a.pdf")]. *)
Definition with_a : State := snd (open_document "a.pdf" boot).

End Example.

(** ** The module body (lines 34-47) *)

(** [s.split(".")] *)
Fixpoint split_dot (s : string) : list string :=
  match s with
  | EmptyString => [EmptyString]
  | String ch rest =>
      if Ascii.eqb ch "." then EmptyString :: split_dot rest
      else
        match split_dot rest with
        | piece :: pieces => String ch piece :: pieces
        | [] => [String ch EmptyString]
        end
  end.

(** [".".join(pieces)] *)
Fixpoint join_dot (pieces : list string) : string :=
  match pieces with
  | [] => EmptyString
  | [piece] => piece
  | piece :: rest => (piece ++ String "." (join_dot rest))%string
  end.

(** [[int(i) for i in pieces]]: the built-in [int] is a parameter; the
    pieces are converted from left to right and the first failure ends the
    comprehension. *)
Fixpoint int_each (int : string -> Outcome Z) (pieces : list string)
  : Outcome (list Z) :=
  match pieces with
  | [] => Return []
  | piece :: rest =>
      and_then (int piece) (fun n =>
      and_then (int_each int rest) (fun ns => Return (n :: ns)))
  end.

(** [v >= w] on lists of integers: the first position where they differ
    decides; without one, the longer list is the greater. *)
Fixpoint py_list_ge (v w : list Z) : bool :=
  match v, w with
  | [], [] => true
  | [], _ :: _ => false
  | _ :: _, [] => true
  | a :: v', b :: w' => if a =? b then py_list_ge v' w' else b <? a
  end.

(** What [import fitz] does: it binds the module, whose [VersionBind] is
    read next, or raises [ImportError], or raises something else. *)
Inductive ImportReply : Type :=
  | Imported (VersionBind : string)
  | ImportError_raised
  | ImportRaises (exc : PyExc).

(** What the module-level name [DocumentPages] is bound to. *)
Inductive ClassBinding : Type := BoundToNone | BoundToClass.

Record ModuleGlobals : Type := mkModuleGlobals {
  has_mupdf : bool;
  DocumentPages_binding : option ClassBinding }.   (* [None]: not bound *)

(** The [try] statement of lines 36-45, from [has_mupdf = True]. *)
Definition import_fitz (int : string -> Outcome Z) (reply : ImportReply)
  : Outcome ModuleGlobals :=
  let globals := mkModuleGlobals true None in
  match reply with
  | Imported VersionBind =>
      and_then (int_each int (split_dot VersionBind)) (fun version =>
      if negb (py_list_ge version [1; 14; 5])
      then Return (mkModuleGlobals false (Some BoundToNone))
      else Return globals)
  | ImportError_raised => Return (mkModuleGlobals false (Some BoundToNone))
  | ImportRaises exc => Raise exc
  end.

(** The module body: lines 34-47, the class statement included. *)
Definition module_body (int : string -> Outcome Z) (reply : ImportReply)
  : Outcome ModuleGlobals :=
  and_then (import_fitz int reply) (fun globals =>
  if has_mupdf globals
  then Return (mkModuleGlobals (has_mupdf globals) (Some BoundToClass))
  else Return globals).

(** A conversion of decimal digits for the examples: the digit strings are
    among the inputs the built-in [int] accepts, with this value; whatever
    else it accepts is not needed here and is answered with [ValueError]. *)
Fixpoint digits_value (acc : Z) (s : string) : option Z :=
  match s with
  | EmptyString => Some acc
  | String ch rest =>
      let code := Z.of_nat (nat_of_ascii ch) in
      if (48 <=? code) && (code <=? 57)
      then digits_value (10 * acc + (code - 48)) rest
      else None
  end.

Definition digits_int (s : string) : Outcome Z :=
  match s with
  | EmptyString => Raise ValueError
  | _ => match digits_value 0 s with
         | Some n => Return n
         | None => Raise ValueError
         end
  end.

(** ** States a sequence of calls can reach *)

(** Either the caches are empty and no page is counted, or the object is
    between an open and a close with caches that fit the document. *)
Definition consistent (st : State) : Prop :=
  (num_pages (self st) = 0%nat
   /\ page_display_list_cache (self st) = []
   /\ page_crop_image_list_cache (self st) = [])
  \/ opened st.

(** The outcome of a call of [op], whatever the type of its result. *)
Definition outcome_of (op : Op) (st : State) : Outcome unit :=
  let forget {A} (r : Outcome A) : Outcome unit :=
    match r with
    | Return _ => Return tt
    | Raise exc => Raise exc
    | Exit code => Exit code
    end in
  match op with
  | OpClearCache => forget (fst (clear_cache st))
  | OpOpenDocument doc_fname => forget (fst (open_document doc_fname st))
  | OpCloseDocument => forget (fst (close_document st))
  | OpGetPagePpmForCrop page_num => forget (fst (get_page_ppm_for_crop page_num st))
  | OpGetPage page_num window_size zoom fit_screen =>
      forget (fst (get_page page_num window_size zoom fit_screen st))
  end.

(** * Properties *)

(** ** Python indexing *)

Lemma py_index_in_range (len : nat) (i : Z) :
  0 <= i < Z.of_nat len -> py_index len i = Some (Z.to_nat i).
Proof.
  intros [Hlo Hhi]. unfold py_index.
  destruct (0 <=? i) eqn:E1; [|lia].
  destruct (i <? Z.of_nat len) eqn:E2; [reflexivity|lia].
Qed.

Lemma py_index_lt (len : nat) (i : Z) (n : nat) :
  py_index len i = Some n -> (n < len)%nat.
Proof.
  unfold py_index.
  destruct (0 <=? i) eqn:E1, (i <? Z.of_nat len) eqn:E2; simpl;
    try (intros [= <-]; lia);
    destruct (- Z.of_nat len <=? i) eqn:E3, (i <? 0) eqn:E4; simpl;
    try discriminate; intros [= <-]; lia.
Qed.

Lemma py_getitem_Some {A} (l : list A) (i : Z) (n : nat) (v : A) :
  py_index (length l) i = Some n -> l !! n = Some v -> py_getitem l i = Return v.
Proof. intros Hi Hv. unfold py_getitem. now rewrite Hi, Hv. Qed.

Lemma py_getitem_None {A} (l : list A) (i : Z) :
  py_index (length l) i = None -> py_getitem l i = Raise IndexError.
Proof. intros Hi. unfold py_getitem. now rewrite Hi. Qed.

(** ** The rendering calls on an open document *)

Lemma opened_page_at (st : State) (n : nat) :
  opened st -> (n < num_pages (self st))%nat -> exists p, page_at st n = Some p.
Proof.
  intros (doc & Hdoc & _ & Hnum & _) Hn. unfold page_at. rewrite Hdoc.
  apply lookup_lt_is_Some_2. unfold fitz.len in Hnum. lia.
Qed.

Lemma opened_slot (st : State) (site : CacheId) (n : nat) (p : fitz.Page) :
  opened st -> page_at st n = Some p ->
  cache site (self st) !! n = Some None
  \/ cache site (self st) !! n = Some (Some (fitz.getDisplayList p)).
Proof.
  intros (doc & Hdoc & _ & _ & [Hl1 Hc1] & [Hl2 Hc2]) Hp.
  unfold page_at in Hp. rewrite Hdoc in Hp.
  assert (Hlt : (n < fitz.len doc)%nat) by (eapply lookup_lt_Some; eassumption).
  destruct site; simpl.
  - destruct (lookup_lt_is_Some_2 (page_display_list_cache (self st)) n) as [slot Hs]; [lia|].
    rewrite Hs. destruct slot as [dl|]; [right|now left].
    destruct (Hc1 _ _ Hs) as (p' & Hp' & ->). congruence.
  - destruct (lookup_lt_is_Some_2 (page_crop_image_list_cache (self st)) n) as [slot Hs]; [lia|].
    rewrite Hs. destruct slot as [dl|]; [right|now left].
    destruct (Hc2 _ _ Hs) as (p' & Hp' & ->). congruence.
Qed.

Lemma get_page_ppm_for_crop_opened (st : State) (page_num : Z) (n : nat) (p : fitz.Page) :
  opened st ->
  py_index (num_pages (self st)) page_num = Some n ->
  page_at st n = Some p ->
  get_page_ppm_for_crop page_num st
  = (Return (fitz.getImageData "ppm"
       (fitz.getPixmap (fitz.getDisplayList p) fitz.Identity fitz.csGRAY None false)),
     fill CropImageListCache n p st).
Proof.
  intros Hop Hidx Hp.
  pose proof (opened_slot st CropImageListCache n p Hop Hp) as Hslot.
  destruct Hop as (doc & Hdoc & Hcl & Hnum & [Hl1 _] & [Hl2 _]).
  unfold page_at in Hp. rewrite Hdoc in Hp.
  unfold fill. simpl in Hslot |- *.
  unfold get_page_ppm_for_crop, bind, get_self, lift. simpl.
  destruct Hslot as [Hs|Hs]; rewrite Hs.
  - erewrite py_getitem_Some; [|rewrite Hl2, <- Hnum; eassumption|eassumption].
    unfold get_document, bind, get_self, raise, lift, ret. simpl. rewrite Hdoc.
    unfold fitz.getitem. rewrite Hcl.
    erewrite py_getitem_Some; [|fold (fitz.len doc); rewrite <- Hnum; eassumption|eassumption].
    unfold position. rewrite <- Hnum, Hidx. simpl.
    unfold py_setitem. rewrite Hl2, <- Hnum, Hidx. simpl.
    erewrite py_getitem_Some;
      [|rewrite length_insert, Hl2, <- Hnum; eassumption
       |apply list_lookup_insert_eq; apply py_index_lt in Hidx; lia].
    simpl. rewrite ?Hdoc. reflexivity.
  - erewrite py_getitem_Some; [|rewrite Hl2, <- Hnum; eassumption|eassumption].
    reflexivity.
Qed.

Lemma get_page_opened (st : State) (page_num : Z) (n : nat) (p : fitz.Page)
    (window_size : option (Q * Q)) (zoom : option (fitz.Point * Z * Z))
    (fit_screen : bool) :
  opened st ->
  py_index (num_pages (self st)) page_num = Some n ->
  page_at st n = Some p ->
  get_page page_num window_size zoom fit_screen st
  = (and_then (zoom_0 window_size (fitz.page_rect p)) (fun z =>
       Return
         (fitz.getImageData "ppm"
            match zoom with
            | Some _ =>
                fitz.getPixmap (fitz.getDisplayList p)
                  (fitz.Matrix_mul (fitz.Matrix_scale z z) (fitz.Matrix_scale 2 2))
                  fitz.csRGB (Some (page_clip (fitz.page_rect p) zoom)) false
            | None =>
                fitz.getPixmap (fitz.getDisplayList p) (fitz.Matrix_scale z z)
                  fitz.csRGB None false
            end,
          fitz.tl (page_clip (fitz.page_rect p) zoom))),
     fill DisplayListCache n p st).
Proof.
  intros Hop Hidx Hp.
  pose proof (opened_slot st DisplayListCache n p Hop Hp) as Hslot.
  destruct Hop as (doc & Hdoc & Hcl & Hnum & [Hl1 _] & [Hl2 _]).
  unfold page_at in Hp. rewrite Hdoc in Hp.
  unfold fill. simpl in Hslot |- *.
  unfold get_page, bind, get_self, lift. simpl.
  destruct Hslot as [Hs|Hs]; rewrite Hs.
  - erewrite py_getitem_Some; [|rewrite Hl1, <- Hnum; eassumption|eassumption].
    unfold get_document, bind, get_self, raise, lift, ret. simpl. rewrite Hdoc.
    unfold fitz.getitem. rewrite Hcl.
    erewrite py_getitem_Some; [|fold (fitz.len doc); rewrite <- Hnum; eassumption|eassumption].
    unfold position. rewrite <- Hnum, Hidx. simpl.
    unfold py_setitem. rewrite Hl1, <- Hnum, Hidx. simpl.
    erewrite py_getitem_Some;
      [|rewrite length_insert, Hl1, <- Hnum; eassumption
       |apply list_lookup_insert_eq; apply py_index_lt in Hidx; lia].
    simpl. rewrite ?Hdoc.
    destruct (zoom_0 window_size (fitz.page_rect p)); simpl; [|reflexivity..].
    destruct zoom; reflexivity.
  - erewrite py_getitem_Some; [|rewrite Hl1, <- Hnum; eassumption|eassumption].
    simpl.
    destruct (zoom_0 window_size (fitz.page_rect p)); simpl; [|reflexivity..].
    destruct zoom; reflexivity.
Qed.

Lemma get_page_ppm_for_crop_out_of_range (st : State) (page_num : Z) :
  py_index (length (page_crop_image_list_cache (self st))) page_num = None ->
  get_page_ppm_for_crop page_num st = (Raise IndexError, st).
Proof.
  intros Hidx. unfold get_page_ppm_for_crop, bind, get_self, lift. simpl.
  now rewrite py_getitem_None.
Qed.

Lemma get_page_out_of_range (st : State) (page_num : Z)
    (window_size : option (Q * Q)) (zoom : option (fitz.Point * Z * Z))
    (fit_screen : bool) :
  py_index (length (page_display_list_cache (self st))) page_num = None ->
  get_page page_num window_size zoom fit_screen st = (Raise IndexError, st).
Proof.
  intros Hidx. unfold get_page, bind, get_self, lift. simpl.
  now rewrite py_getitem_None.
Qed.

(** [fill] keeps an open document open and its caches coherent. *)
Lemma fill_opened (site : CacheId) (n : nat) (p : fitz.Page) (st : State) :
  opened st -> page_at st n = Some p -> opened (fill site n p st).
Proof.
  intros Hop Hp. unfold fill.
  destruct (cache site (self st) !! n) as [[dl|]|] eqn:Hs; try assumption.
  destruct Hop as (doc & Hdoc & Hcl & Hnum & [Hl1 Hc1] & [Hl2 Hc2]).
  unfold page_at in Hp. rewrite Hdoc in Hp.
  exists doc. destruct site; simpl in *;
    (split; [assumption|]); (split; [assumption|]); (split; [assumption|]).
  - split; [|split; assumption].
    split; [now rewrite length_insert|].
    intros m dl Hm. destruct (decide (n = m)) as [<-|Hne].
    + rewrite list_lookup_insert_eq in Hm by (eapply lookup_lt_Some; eassumption).
      injection Hm as <-. eauto.
    + rewrite list_lookup_insert_ne in Hm by assumption. eauto.
  - split; [split; assumption|].
    split; [now rewrite length_insert|].
    intros m dl Hm. destruct (decide (n = m)) as [<-|Hne].
    + rewrite list_lookup_insert_eq in Hm by (eapply lookup_lt_Some; eassumption).
      injection Hm as <-. eauto.
    + rewrite list_lookup_insert_ne in Hm by assumption. eauto.
Qed.

Lemma fill_page_at (site : CacheId) (n m : nat) (p : fitz.Page) (st : State) :
  page_at (fill site n p st) m = page_at st m.
Proof.
  unfold fill. destruct (cache site (self st) !! n) as [[dl|]|]; try reflexivity.
  destruct site; reflexivity.
Qed.

Lemma fill_num_pages (site : CacheId) (n : nat) (p : fitz.Page) (st : State) :
  num_pages (self (fill site n p st)) = num_pages (self st).
Proof.
  unfold fill. destruct (cache site (self st) !! n) as [[dl|]|]; try reflexivity.
  destruct site; reflexivity.
Qed.

(** ** [open_document] *)

Lemma open_document_Opened (st : State) (doc_fname : string)
    (doc_pages : list fitz.Page) :
  files (world st) doc_fname = fitz.Opened doc_pages ->
  open_document doc_fname st
  = (Return (length doc_pages),
     mkState
       (mkDocumentPages (Some (fitz.mkDocument doc_pages false)) (length doc_pages)
          (replicate (length doc_pages) None) (replicate (length doc_pages) None))
       (world st)).
Proof.
  intros Hfile.
  unfold open_document, bind, try_except_RuntimeError, fitz_open. simpl.
  rewrite Hfile. reflexivity.
Qed.

Lemma open_document_RuntimeError (st : State) (doc_fname : string) (exc : PyExc) :
  files (world st) doc_fname = fitz.OpenRaises exc ->
  is_RuntimeError exc = true ->
  open_document doc_fname st
  = (Exit 1,
     mkState (self st)
       (mkWorld (files (world st))
          (stderr (world st) ++ diagnostic doc_fname ++ nl)%string
          (materialized (world st)))).
Proof.
  intros Hfile Hexc.
  unfold open_document, bind, try_except_RuntimeError, fitz_open. simpl.
  rewrite Hfile, Hexc. reflexivity.
Qed.

Lemma open_document_other_exception (st : State) (doc_fname : string) (exc : PyExc) :
  files (world st) doc_fname = fitz.OpenRaises exc ->
  is_RuntimeError exc = false ->
  open_document doc_fname st = (Raise exc, st).
Proof.
  intros Hfile Hexc.
  unfold open_document, bind, try_except_RuntimeError, fitz_open. simpl.
  rewrite Hfile, Hexc. reflexivity.
Qed.

(** The three ways [open_document] can end. *)
Lemma open_document_cases (st : State) (doc_fname : string) :
  (exists doc_pages,
     files (world st) doc_fname = fitz.Opened doc_pages
     /\ open_document doc_fname st
        = (Return (length doc_pages),
           mkState
             (mkDocumentPages (Some (fitz.mkDocument doc_pages false))
                (length doc_pages)
                (replicate (length doc_pages) None)
                (replicate (length doc_pages) None))
             (world st)))
  \/ (exists code w, open_document doc_fname st = (Exit code, mkState (self st) w))
  \/ (exists exc, open_document doc_fname st = (Raise exc, st)).
Proof.
  destruct (files (world st) doc_fname) as [doc_pages|exc] eqn:Hfile.
  - left. exists doc_pages. split; [reflexivity|].
    now apply open_document_Opened.
  - destruct (is_RuntimeError exc) eqn:Hexc.
    + right; left. do 2 eexists. now apply open_document_RuntimeError with (exc := exc).
    + right; right. exists exc. now apply open_document_other_exception.
Qed.

Lemma fresh_opened (doc_pages : list fitz.Page) (w : World) :
  opened
    (mkState
       (mkDocumentPages (Some (fitz.mkDocument doc_pages false)) (length doc_pages)
          (replicate (length doc_pages) None) (replicate (length doc_pages) None))
       w).
Proof.
  exists (fitz.mkDocument doc_pages false). simpl.
  repeat split; try reflexivity; unfold fitz.len; simpl;
    try apply length_replicate;
    intros n dl Hn; apply lookup_replicate in Hn as [? _]; discriminate.
Qed.

Lemma open_document_opened (st st' : State) (doc_fname : string) (N : nat) :
  open_document doc_fname st = (Return N, st') -> opened st'.
Proof.
  intros Hopen.
  destruct (open_document_cases st doc_fname)
    as [(doc_pages & _ & H)|[(code & w & H)|(exc & H)]];
    rewrite H in Hopen; try discriminate.
  injection Hopen as _ <-. apply fresh_opened.
Qed.

(** ** Strings *)

Lemma append_assoc (s1 s2 s3 : string) :
  ((s1 ++ s2) ++ s3 = s1 ++ (s2 ++ s3))%string.
Proof. induction s1 as [|ch s1 IH]; simpl; [reflexivity|now rewrite IH]. Qed.

Lemma diagnostic_names_path (doc_fname : string) :
  contains doc_fname (diagnostic doc_fname).
Proof.
  unfold contains, diagnostic.
  exists (nl ++ "Error in pdfCropMargins: The PyMuPDF program could not read"
             ++ " the document" ++ nl ++ "   '")%string.
  eexists. simpl. reflexivity.
Qed.

Lemma diagnostic_suggests_gsFix (doc_fname : string) :
  contains "--gsFix" (diagnostic doc_fname).
Proof.
  unfold contains, diagnostic.
  exists ((nl ++ "Error in pdfCropMargins: The PyMuPDF program could not read"
              ++ " the document" ++ nl ++ "   '") ++ doc_fname
          ++ "'" ++ nl ++ "in order to display it in the GUI.   If you have"
          ++ " Ghostscript installed" ++ nl
          ++ "consider running pdfCropMargins with the '")%string.
  exists "' option to attempt to repair it."%string.
  rewrite !append_assoc. simpl. repeat f_equal.
Qed.

(** C4.  When PyMuPDF reports that it cannot read the file (a
    [RuntimeError] from [fitz.open]), [open_document] does not return: it
    writes to standard error a diagnostic that names the path and suggests
    the repair option [--gsFix], and the process ends with exit status 1;
    the caller receives neither a value nor an exception, and the object is
    left as it was. *)
Theorem open_document_unreadable_is_fatal
    (st : State) (doc_fname : string) (exc : PyExc) :
  files (world st) doc_fname = fitz.OpenRaises exc ->
  is_RuntimeError exc = true ->
  exists st',
    open_document doc_fname st = (Exit 1, st')
    /\ 1 <> 0
    /\ self st' = self st
    /\ stderr (world st') = (stderr (world st) ++ diagnostic doc_fname ++ nl)%string
    /\ contains doc_fname (diagnostic doc_fname)
    /\ contains "--gsFix" (diagnostic doc_fname)
    /\ (forall N st'', open_document doc_fname st <> (Return N, st''))
    /\ (forall e st'', open_document doc_fname st <> (Raise e, st'')).
Proof.
  intros Hfile Hexc.
  pose proof (open_document_RuntimeError st doc_fname exc Hfile Hexc) as Hopen.
  eexists. split; [exact Hopen|].
  split; [discriminate|]. simpl.
  split; [reflexivity|]. split; [reflexivity|].
  split; [apply diagnostic_names_path|].
  split; [apply diagnostic_suggests_gsFix|].
  split; intros ? ?; rewrite Hopen; discriminate.
Qed.

Lemma open_document_unreadable_is_fatal_witness :
  exists st',
    open_document "damaged.pdf" Example.boot = (Exit 1, st')
    /\ 1 <> 0
    /\ self st' = self Example.boot
    /\ stderr (world st')
       = (stderr (world Example.boot) ++ diagnostic "damaged.pdf" ++ nl)%string
    /\ contains "damaged.pdf" (diagnostic "damaged.pdf")
    /\ contains "--gsFix" (diagnostic "damaged.pdf")
    /\ (forall N st'', open_document "damaged.pdf" Example.boot <> (Return N, st''))
    /\ (forall e st'', open_document "damaged.pdf" Example.boot <> (Raise e, st'')).
Proof.
  apply (open_document_unreadable_is_fatal Example.boot "damaged.pdf" RuntimeError);
    reflexivity.
Defined.

(** C5.  When [fitz.open] succeeds on a document of [N] pages,
    [open_document] stores the document handle, sets [num_pages] to [N],
    gives both caches exactly [N] slots, all empty, and returns [N]; nothing
    is printed and no display list is built. *)
Theorem open_document_success
    (st : State) (doc_fname : string) (doc_pages : list fitz.Page) :
  files (world st) doc_fname = fitz.Opened doc_pages ->
  let N := length doc_pages in
  exists st',
    open_document doc_fname st = (Return N, st')
    /\ document (self st') = Some (fitz.mkDocument doc_pages false)
    /\ num_pages (self st') = N
    /\ page_display_list_cache (self st') = replicate N None
    /\ page_crop_image_list_cache (self st') = replicate N None
    /\ length (page_display_list_cache (self st')) = N
    /\ length (page_crop_image_list_cache (self st')) = N
    /\ world st' = world st.
Proof.
  intros Hfile N. eexists.
  split; [apply open_document_Opened; exact Hfile|]. simpl.
  repeat split; apply length_replicate.
Qed.

Lemma open_document_success_witness :
  exists st',
    open_document "a.pdf" Example.boot = (Return 2%nat, st')
    /\ document (self st')
       = Some (fitz.mkDocument [Example.letter; Example.card] false)
    /\ num_pages (self st') = 2%nat
    /\ page_display_list_cache (self st') = [None; None]
    /\ page_crop_image_list_cache (self st') = [None; None]
    /\ length (page_display_list_cache (self st')) = 2%nat
    /\ length (page_crop_image_list_cache (self st')) = 2%nat
    /\ world st' = world Example.boot.
Proof.
  apply (open_document_success Example.boot "a.pdf" [Example.letter; Example.card]).
  reflexivity.
Defined.

(** C10.  Only a [RuntimeError] (an exception that [except RuntimeError]
    catches) is the fatal condition of [open_document]: any other exception
    raised by [fitz.open] reaches the caller as it is, nothing is printed,
    the process does not end, and the object is unchanged. *)
Theorem open_document_other_exception_propagates
    (st : State) (doc_fname : string) (exc : PyExc) :
  files (world st) doc_fname = fitz.OpenRaises exc ->
  is_RuntimeError exc = false ->
  open_document doc_fname st = (Raise exc, st)
  /\ stderr (world (snd (open_document doc_fname st))) = stderr (world st)
  /\ goes_on (fst (open_document doc_fname st)) = true.
Proof.
  intros Hfile Hexc.
  rewrite (open_document_other_exception st doc_fname exc Hfile Hexc).
  repeat split.
Qed.

Lemma open_document_other_exception_propagates_witness :
  open_document "missing.pdf" Example.boot = (Raise OSError, Example.boot)
  /\ stderr (world (snd (open_document "missing.pdf" Example.boot)))
     = stderr (world Example.boot)
  /\ goes_on (fst (open_document "missing.pdf" Example.boot)) = true.
Proof.
  apply (open_document_other_exception_propagates Example.boot "missing.pdf" OSError);
    reflexivity.
Defined.

(** C9.  The flag [fit_screen] does not alter [get_page]: two calls that
    differ only in the flag give the same result and leave the same state,
    for every page number, viewport and zoom directive. *)
Theorem get_page_ignores_fit_screen
    (st : State) (page_num : Z) (window_size : option (Q * Q))
    (zoom : option (fitz.Point * Z * Z)) (flag flag' : bool) :
  get_page page_num window_size zoom flag st
  = get_page page_num window_size zoom flag' st.
Proof. reflexivity. Qed.

(** ** Python's comparisons, [min] and [max] on rationals *)

Lemma Qltb_true (a b : Q) : Qltb a b = true <-> (a < b)%Q.
Proof.
  unfold Qltb. rewrite negb_true_iff. split.
  - intros Hle. apply Qnot_le_lt. intros Hba.
    apply Qle_bool_iff in Hba. congruence.
  - intros Hlt. destruct (Qle_bool b a) eqn:Hle; [|reflexivity].
    apply Qle_bool_iff in Hle. exfalso. eapply Qlt_not_le; eassumption.
Qed.

Lemma Qltb_false (a b : Q) : Qltb a b = false <-> (b <= a)%Q.
Proof.
  unfold Qltb. rewrite negb_false_iff. apply Qle_bool_iff.
Qed.

Lemma py_min_Qmin (a b : Q) : (py_min a b == Qmin a b)%Q.
Proof.
  unfold py_min. destruct (Qltb b a) eqn:Hlt.
  - apply Qltb_true in Hlt. symmetry. apply Q.min_r. now apply Qlt_le_weak.
  - apply Qltb_false in Hlt. symmetry. now apply Q.min_l.
Qed.

Lemma py_max_Qmax (a b : Q) : (py_max a b == Qmax a b)%Q.
Proof.
  unfold py_max. destruct (Qltb a b) eqn:Hlt.
  - apply Qltb_true in Hlt. symmetry. apply Q.max_r. now apply Qlt_le_weak.
  - apply Qltb_false in Hlt. symmetry. now apply Q.max_l.
Qed.

Lemma py_div_nonzero (a b : Q) : ~ (b == 0)%Q -> py_div a b = Return (a / b)%Q.
Proof.
  intros Hb. unfold py_div. destruct (Qeq_bool b 0) eqn:E; [|reflexivity].
  apply Qeq_bool_eq in E. contradiction.
Qed.

Lemma py_div_zero (a b : Q) : (b == 0)%Q -> py_div a b = Raise ZeroDivisionError.
Proof. intros Hb. unfold py_div. now rewrite (Qeq_eq_bool _ _ Hb). Qed.

(** ** The base fit-scale *)

Lemma zoom_0_no_viewport (rect : fitz.Rect) : zoom_0 None rect = Return 1%Q.
Proof. reflexivity. Qed.

Lemma zoom_0_viewport (rect : fitz.Rect) (W H Vw Vh : Q) :
  (fitz.width rect == W)%Q -> (fitz.height rect == H)%Q ->
  (0 < W)%Q -> (0 < H)%Q ->
  exists z, zoom_0 (Some (Vw, Vh)) rect = Return z
            /\ (z == fit_scale_spec W H Vw Vh)%Q.
Proof.
  intros HW HH HWpos HHpos.
  assert (HWnz : ~ (fitz.width rect == 0)%Q).
  { rewrite HW. intros E. rewrite E in HWpos. now apply Qlt_irrefl in HWpos. }
  assert (HHnz : ~ (fitz.height rect == 0)%Q).
  { rewrite HH. intros E. rewrite E in HHpos. now apply Qlt_irrefl in HHpos. }
  unfold zoom_0.
  rewrite (py_div_nonzero Vw _ HWnz), (py_div_nonzero Vh _ HHnz). simpl.
  assert (Hfloor :
    (py_min (py_min 1 (Vw / fitz.width rect)) (Vh / fitz.height rect)
     == Qmin 1 (Qmin (Vw / W) (Vh / H)))%Q).
  { rewrite !py_min_Qmin, HW, HH. symmetry. apply Q.min_assoc. }
  unfold fit_scale_spec.
  destruct (Qeq_bool (py_min (py_min 1 (Vw / fitz.width rect))
                        (Vh / fitz.height rect)) 1) eqn:E.
  - eexists. split; [reflexivity|].
    rewrite Hfloor in E. rewrite E.
    now rewrite py_min_Qmin, HW, HH.
  - eexists. split; [reflexivity|].
    rewrite Hfloor in E. rewrite E. exact Hfloor.
Qed.

(** ** The zoom window *)

Lemma width_nonneg (r : fitz.Rect) : (0 <= fitz.width r)%Q.
Proof. apply Qabs_nonneg. Qed.


Lemma width_at_origin (W H : Q) :
  (0 <= W)%Q -> (fitz.width (fitz.mkRect 0 0 W H) == W)%Q.
Proof.
  intros HW. unfold fitz.width. cbn [fitz.x1 fitz.x0].
  assert (E : (W - 0 == W)%Q) by ring.
  rewrite E. now apply Qabs_pos.
Qed.

Lemma height_at_origin (W H : Q) :
  (0 <= H)%Q -> (fitz.height (fitz.mkRect 0 0 W H) == H)%Q.
Proof.
  intros HH. unfold fitz.height. cbn [fitz.y1 fitz.y0].
  assert (E : (H - 0 == H)%Q) by ring.
  rewrite E. now apply Qabs_pos.
Qed.

Lemma clamp_bounds (lo hi v : Q) :
  (lo <= hi)%Q -> (lo <= clamp lo hi v <= hi)%Q.
Proof.
  intros Hle. unfold clamp. split.
  - apply Q.min_glb; [assumption|apply Q.le_max_l].
  - apply Q.le_min_l.
Qed.

Lemma zoom_tl_x (rect : fitz.Rect) (old_tl : fitz.Point) (dx dy : Z) (W : Q) :
  (fitz.width rect == W)%Q ->
  (fitz.x (zoom_tl rect (old_tl, dx, dy))
   == clamp 0 (W / 2) (fitz.x old_tl + inject_Z dx * (W / 4)))%Q.
Proof.
  intros HW. unfold zoom_tl, clamp. cbn [fitz.x].
  rewrite py_min_Qmin, py_max_Qmax, HW.
  assert (E : (W / 2 / 2 == W / 4)%Q) by field.
  now rewrite E.
Qed.

Lemma zoom_tl_y (rect : fitz.Rect) (old_tl : fitz.Point) (dx dy : Z) (H : Q) :
  (fitz.height rect == H)%Q ->
  (fitz.y (zoom_tl rect (old_tl, dx, dy))
   == clamp 0 (H / 2) (fitz.y old_tl + inject_Z dy * (H / 4)))%Q.
Proof.
  intros HH. unfold zoom_tl, clamp. cbn [fitz.y].
  rewrite py_min_Qmin, py_max_Qmax, HH.
  assert (E : (H / 2 / 2 == H / 4)%Q) by field.
  now rewrite E.
Qed.

Lemma half_nonneg (W : Q) : (0 <= W)%Q -> (0 <= W / 2)%Q.
Proof. intros HW. apply Qle_shift_div_l; [reflexivity|]. now rewrite Qmult_0_l. Qed.


(** ** [get_page] *)

Lemma example_with_a_opened : opened Example.with_a.
Proof. apply (open_document_opened Example.boot _ "a.pdf" 2%nat). reflexivity. Qed.

(** Both branches of lines 133-135 on the card page (200 by 100): a 100 by
    100 viewport gives [min(1, 1/2, 1) = 1/2]; a 400 by 300 viewport gives
    [min(1, 2, 3) = 1], replaced by [min(2, 3) = 2]. *)
Example zoom_0_below_one :
  exists z, zoom_0 (Some (100, 100)%Q) (fitz.page_rect Example.card) = Return z
            /\ (z == 1 # 2)%Q.
Proof. eexists. split; reflexivity. Qed.

Example zoom_0_exactly_one :
  exists z, zoom_0 (Some (400, 300)%Q) (fitz.page_rect Example.card) = Return z
            /\ (z == 2)%Q.
Proof. eexists. split; reflexivity. Qed.

(** C2.  For a page of size [(W, H)] with [W, H > 0], the base fit-scale
    [zoom_0] that [get_page] computes and renders with is, for a supplied
    viewport [(Vw, Vh)], [min(1, Vw/W, Vh/H)], except when that value equals
    exactly 1, in which case it is [min(Vw/W, Vh/H)]; with no viewport it is
    1.  The call returns, and the matrix of its render request is the scale
    by [zoom_0] (times the magnification 2 in zoom mode). *)
Theorem get_page_base_fit_scale
    (st : State) (page_num : Z) (p : fitz.Page) (W H : Q)
    (window_size : option (Q * Q)) (zoom : option (fitz.Point * Z * Z))
    (fit_screen : bool) :
  opened st ->
  0 <= page_num < Z.of_nat (num_pages (self st)) ->
  page_at st (Z.to_nat page_num) = Some p ->
  (fitz.width (fitz.page_rect p) == W)%Q ->
  (fitz.height (fitz.page_rect p) == H)%Q ->
  (0 < W)%Q -> (0 < H)%Q ->
  exists z image pos st',
    zoom_0 window_size (fitz.page_rect p) = Return z
    /\ get_page page_num window_size zoom fit_screen st = (Return (image, pos), st')
    /\ fitz.pixmap_matrix (fitz.image_of image)
       = match zoom with
         | Some _ => fitz.Matrix_mul (fitz.Matrix_scale z z) (fitz.Matrix_scale 2 2)
         | None => fitz.Matrix_scale z z
         end
    /\ (z == match window_size with
             | Some (Vw, Vh) => fit_scale_spec W H Vw Vh
             | None => 1
             end)%Q.
Proof.
  intros Hop Hrange Hp HW HH HWpos HHpos.
  assert (Hz : exists z, zoom_0 window_size (fitz.page_rect p) = Return z
                 /\ (z == match window_size with
                          | Some (Vw, Vh) => fit_scale_spec W H Vw Vh
                          | None => 1
                          end)%Q).
  { destruct window_size as [[Vw Vh]|].
    - now apply zoom_0_viewport.
    - exists 1%Q. split; reflexivity. }
  destruct Hz as (z & Hz & Hspec).
  pose proof (get_page_opened st page_num _ p window_size zoom fit_screen Hop
                (py_index_in_range _ _ Hrange) Hp) as Hget.
  rewrite Hz in Hget. simpl in Hget.
  exists z. do 3 eexists.
  split; [exact Hz|]. split; [exact Hget|].
  split; [|exact Hspec]. destruct zoom; reflexivity.
Qed.

(** The card page (200 by 100) in a 400 by 400 viewport: [min(1, 2, 4)] is
    exactly 1, so the second branch is taken. *)
Lemma get_page_base_fit_scale_witness :
  exists z image pos st',
    zoom_0 (Some (400, 400)%Q) (fitz.page_rect Example.card) = Return z
    /\ get_page 1 (Some (400, 400)%Q) None true Example.with_a
       = (Return (image, pos), st')
    /\ fitz.pixmap_matrix (fitz.image_of image) = fitz.Matrix_scale z z
    /\ (z == fit_scale_spec 200 100 400 400)%Q.
Proof.
  apply (get_page_base_fit_scale Example.with_a 1 Example.card 200 100
           (Some (400, 400)%Q) None true).
  - exact example_with_a_opened.
  - split; [lia|reflexivity].
  - reflexivity.
  - reflexivity.
  - reflexivity.
  - reflexivity.
  - reflexivity.
Defined.



(** C8.  With no zoom directive, for an in-range page whose rectangle is
    [(0, 0, W, H)], [get_page] renders the entire page (no clip is passed to
    the renderer) at the base fit-scale, its clip rectangle is the full page
    rectangle [(0, 0, W, H)], and it returns that rectangle's top-left,
    [(0, 0)]. *)
Theorem get_page_whole_page
    (st : State) (page_num : Z) (p : fitz.Page) (W H : Q)
    (window_size : option (Q * Q)) (fit_screen : bool) :
  opened st ->
  0 <= page_num < Z.of_nat (num_pages (self st)) ->
  page_at st (Z.to_nat page_num) = Some p ->
  fitz.page_rect p = fitz.mkRect 0 0 W H ->
  (0 < W)%Q -> (0 < H)%Q ->
  exists z,
    zoom_0 window_size (fitz.page_rect p) = Return z
    /\ (z == match window_size with
             | Some (Vw, Vh) => fit_scale_spec W H Vw Vh
             | None => 1
             end)%Q
    /\ page_clip (fitz.page_rect p) None = fitz.mkRect 0 0 W H
    /\ get_page page_num window_size None fit_screen st
       = (Return
            (fitz.getImageData "ppm"
               (fitz.getPixmap (fitz.getDisplayList p) (fitz.Matrix_scale z z)
                  fitz.csRGB None false),
             fitz.mkPoint 0 0),
          fill DisplayListCache (Z.to_nat page_num) p st).
Proof.
  intros Hop Hrange Hp Hrect HWpos HHpos.
  assert (HW : (fitz.width (fitz.page_rect p) == W)%Q).
  { rewrite Hrect. apply width_at_origin. now apply Qlt_le_weak. }
  assert (HH : (fitz.height (fitz.page_rect p) == H)%Q).
  { rewrite Hrect. apply height_at_origin. now apply Qlt_le_weak. }
  assert (Hz : exists z, zoom_0 window_size (fitz.page_rect p) = Return z
                 /\ (z == match window_size with
                          | Some (Vw, Vh) => fit_scale_spec W H Vw Vh
                          | None => 1
                          end)%Q).
  { destruct window_size as [[Vw Vh]|].
    - now apply zoom_0_viewport.
    - exists 1%Q. split; reflexivity. }
  destruct Hz as (z & Hz & Hspec).
  pose proof (get_page_opened st page_num _ p window_size None fit_screen Hop
                (py_index_in_range _ _ Hrange) Hp) as Hget.
  rewrite Hz in Hget. cbn [and_then page_clip] in Hget.
  exists z. split; [exact Hz|]. split; [exact Hspec|].
  split; [exact Hrect|].
  rewrite Hget, Hrect. reflexivity.
Qed.

Lemma get_page_whole_page_witness :
  exists z,
    zoom_0 (Some (306, 792)%Q) (fitz.page_rect Example.letter) = Return z
    /\ (z == fit_scale_spec 612 792 306 792)%Q
    /\ page_clip (fitz.page_rect Example.letter) None = fitz.mkRect 0 0 612 792
    /\ get_page 0 (Some (306, 792)%Q) None true Example.with_a
       = (Return
            (fitz.getImageData "ppm"
               (fitz.getPixmap (fitz.getDisplayList Example.letter)
                  (fitz.Matrix_scale z z) fitz.csRGB None false),
             fitz.mkPoint 0 0),
          fill DisplayListCache (Z.to_nat 0) Example.letter Example.with_a).
Proof.
  apply (get_page_whole_page Example.with_a 0 Example.letter 612 792
           (Some (306, 792)%Q) true).
  - exact example_with_a_opened.
  - split; [lia|reflexivity].
  - reflexivity.
  - reflexivity.
  - reflexivity.
  - reflexivity.
Defined.

(** ** [get_page_ppm_for_crop] *)

(** C1, as the claim states it, fails: on a freshly opened document
    [get_page_ppm_for_crop(0)] leaves slot 0 of the render-list cache
    [page_display_list_cache] empty and fills slot 0 of the crop-image cache
    [page_crop_image_list_cache]; a following [get_page(0)] builds the
    display list of the page a second time. *)
Lemma get_page_ppm_for_crop_cache_counterexample :
  page_display_list_cache (self Example.with_a) = [None; None]
  /\ page_crop_image_list_cache (self Example.with_a) = [None; None]
  /\ page_display_list_cache (self (snd (get_page_ppm_for_crop 0 Example.with_a)))
     = [None; None]
  /\ page_crop_image_list_cache (self (snd (get_page_ppm_for_crop 0 Example.with_a)))
     = [Some (fitz.getDisplayList Example.letter); None]
  /\ materialized
       (world (snd (get_page 0 None None true
                      (snd (get_page_ppm_for_crop 0 Example.with_a)))))
     = [(DisplayListCache, 0%nat); (CropImageListCache, 0%nat)].
Proof. repeat split. Qed.

(** C1 (amended).  For every in-range page index, [get_page_ppm_for_crop]
    returns the unscaled, unclipped grayscale image of the page and
    populates or reuses the slot of that page in the crop-image cache
    [page_crop_image_list_cache]: an empty slot receives the display list,
    built once; a filled slot is reused and nothing changes.  It leaves the
    render-list cache [page_display_list_cache] of [get_page] unchanged, so
    the two operations share no slot: while the slot of [get_page] is empty,
    a following [get_page] builds the display list itself. *)
Theorem get_page_ppm_for_crop_own_cache
    (st : State) (page_num : Z) (p : fitz.Page) :
  opened st ->
  0 <= page_num < Z.of_nat (num_pages (self st)) ->
  page_at st (Z.to_nat page_num) = Some p ->
  let n := Z.to_nat page_num in
  exists st',
    get_page_ppm_for_crop page_num st
    = (Return (fitz.getImageData "ppm"
         (fitz.getPixmap (fitz.getDisplayList p) fitz.Identity fitz.csGRAY None false)),
       st')
    /\ page_crop_image_list_cache (self st') !! n = Some (Some (fitz.getDisplayList p))
    /\ (forall m, m <> n ->
          page_crop_image_list_cache (self st') !! m
          = page_crop_image_list_cache (self st) !! m)
    /\ page_display_list_cache (self st') = page_display_list_cache (self st)
    /\ match page_crop_image_list_cache (self st) !! n with
       | Some (Some _) => st' = st
       | _ => materialized (world st')
              = (CropImageListCache, n) :: materialized (world st)
       end
    /\ (page_display_list_cache (self st) !! n = Some None ->
        forall window_size zoom fit_screen,
          materialized
            (world (snd (get_page page_num window_size zoom fit_screen st')))
          = (DisplayListCache, n) :: materialized (world st')).
Proof.
  intros Hop Hrange Hp n.
  pose proof (py_index_in_range _ _ Hrange) as Hidx. fold n in Hidx, Hp.
  pose proof (get_page_ppm_for_crop_opened st page_num n p Hop Hidx Hp) as Hcrop.
  pose proof (fill_opened CropImageListCache n p st Hop Hp) as Hop'.
  pose proof (opened_slot st CropImageListCache n p Hop Hp) as Hslot.
  exists (fill CropImageListCache n p st). split; [exact Hcrop|].
  assert (Hlt : (n < length (page_crop_image_list_cache (self st)))%nat).
  { destruct Hslot as [Hs|Hs]; simpl in Hs; eapply lookup_lt_Some; eassumption. }
  split; [|split; [|split; [|split]]].
  - unfold fill. simpl in Hslot |- *. destruct Hslot as [Hs|Hs]; rewrite Hs; simpl.
    + now apply list_lookup_insert_eq.
    + exact Hs.
  - intros m Hm. unfold fill. simpl.
    destruct (page_crop_image_list_cache (self st) !! n) as [[dl|]|]; try reflexivity.
    simpl. apply list_lookup_insert_ne. congruence.
  - unfold fill. simpl.
    destruct (page_crop_image_list_cache (self st) !! n) as [[dl|]|]; reflexivity.
  - unfold fill. simpl in Hslot |- *. destruct Hslot as [Hs|Hs]; rewrite Hs; reflexivity.
  - intros Hempty window_size zoom fit_screen.
    rewrite (get_page_opened _ page_num n p window_size zoom fit_screen Hop').
    + cbn [snd]. unfold fill at 1.
      assert (Hd : cache DisplayListCache (self (fill CropImageListCache n p st)) !! n
                   = Some None).
      { unfold fill. simpl.
        destruct (page_crop_image_list_cache (self st) !! n) as [[dl|]|]; exact Hempty. }
      rewrite Hd. reflexivity.
    + now rewrite fill_num_pages.
    + now rewrite fill_page_at.
Qed.

Lemma get_page_ppm_for_crop_own_cache_witness :
  exists st',
    get_page_ppm_for_crop 1 Example.with_a
    = (Return (fitz.getImageData "ppm"
         (fitz.getPixmap (fitz.getDisplayList Example.card) fitz.Identity
            fitz.csGRAY None false)),
       st')
    /\ page_crop_image_list_cache (self st') !! Z.to_nat 1
       = Some (Some (fitz.getDisplayList Example.card))
    /\ (forall m, m <> Z.to_nat 1 ->
          page_crop_image_list_cache (self st') !! m
          = page_crop_image_list_cache (self Example.with_a) !! m)
    /\ page_display_list_cache (self st')
       = page_display_list_cache (self Example.with_a)
    /\ match page_crop_image_list_cache (self Example.with_a) !! Z.to_nat 1 with
       | Some (Some _) => st' = Example.with_a
       | _ => materialized (world st')
              = (CropImageListCache, Z.to_nat 1)
                  :: materialized (world Example.with_a)
       end
    /\ (page_display_list_cache (self Example.with_a) !! Z.to_nat 1 = Some None ->
        forall window_size zoom fit_screen,
          materialized
            (world (snd (get_page 1 window_size zoom fit_screen st')))
          = (DisplayListCache, Z.to_nat 1) :: materialized (world st')).
Proof.
  apply (get_page_ppm_for_crop_own_cache Example.with_a 1 Example.card).
  - exact example_with_a_opened.
  - split; [lia|reflexivity].
  - reflexivity.
Defined.

(** ** Sequences of rendering calls on an open document *)

Lemma zoom_0_goes_on (window_size : option (Q * Q)) (rect : fitz.Rect) :
  goes_on (zoom_0 window_size rect) = true.
Proof.
  unfold zoom_0, py_div. destruct window_size as [[w0 w1]|]; [|reflexivity].
  destruct (Qeq_bool (fitz.width rect) 0); [reflexivity|].
  destruct (Qeq_bool (fitz.height rect) 0); [reflexivity|]. simpl.
  match goal with |- context [if ?b then _ else _] => destruct b end; reflexivity.
Qed.

Lemma opened_lengths (st : State) (site : CacheId) :
  opened st -> length (cache site (self st)) = num_pages (self st).
Proof.
  intros (doc & _ & _ & Hnum & [Hl1 _] & [Hl2 _]). destruct site; simpl; congruence.
Qed.

(** A rendering call on an open document either finds its index out of
    range and changes nothing, or has the effect of [fill] on its own cache. *)
Lemma step_render_opened (st : State) (op : Op) (site : CacheId) (page_num : Z) :
  opened st ->
  target op = Some (site, page_num) ->
  step op st
  = (true,
     match py_index (num_pages (self st)) page_num with
     | Some n =>
         match page_at st n with
         | Some p => fill site n p st
         | None => st
         end
     | None => st
     end).
Proof.
  intros Hop Htarget.
  destruct (py_index (num_pages (self st)) page_num) as [n|] eqn:Hidx.
  - destruct (opened_page_at st n Hop (py_index_lt _ _ _ Hidx)) as [p Hp].
    rewrite Hp.
    destruct op; simpl in Htarget; try discriminate; injection Htarget as <- <-.
    + simpl. now rewrite (get_page_ppm_for_crop_opened st page_num0 n p Hop Hidx Hp).
    + simpl.
      rewrite (get_page_opened st page_num0 n p window_size zoom fit_screen Hop Hidx Hp).
      simpl. pose proof (zoom_0_goes_on window_size (fitz.page_rect p)) as Hgo.
      destruct (zoom_0 window_size (fitz.page_rect p)); try discriminate; reflexivity.
  - destruct op; simpl in Htarget; try discriminate; injection Htarget as <- <-.
    + pose proof (opened_lengths st CropImageListCache Hop) as Hlen.
      simpl in Hlen |- *.
      rewrite get_page_ppm_for_crop_out_of_range; [reflexivity|]. now rewrite Hlen.
    + pose proof (opened_lengths st DisplayListCache Hop) as Hlen.
      simpl in Hlen |- *.
      rewrite get_page_out_of_range; [reflexivity|]. now rewrite Hlen.
Qed.

Lemma cache_set_cache (site : CacheId) (l : list (option fitz.DisplayList))
    (o : DocumentPages) :
  cache site (set_cache site l o) = l.
Proof. destruct site; reflexivity. Qed.

Lemma cache_set_cache_other (site site' : CacheId)
    (l : list (option fitz.DisplayList)) (o : DocumentPages) :
  site' <> site -> cache site' (set_cache site l o) = cache site' o.
Proof. destruct site, site'; intros Hne; try reflexivity; contradiction. Qed.

Lemma render_target (op : Op) :
  is_render op = true -> exists site page_num, target op = Some (site, page_num).
Proof. destruct op; simpl; try discriminate; eauto. Qed.

Lemma fresh_once_per_slot (doc_pages : list fitz.Page) (w : World) :
  once_per_slot (length doc_pages) (materialized w)
    (mkState
       (mkDocumentPages (Some (fitz.mkDocument doc_pages false)) (length doc_pages)
          (replicate (length doc_pages) None) (replicate (length doc_pages) None))
       w).
Proof.
  split; [apply fresh_opened|]. split; [reflexivity|].
  exists []. split; [reflexivity|]. split; [constructor|].
  intros site n. split.
  - intros Hin. inversion Hin.
  - intros [dl Hdl]. destruct site; simpl in Hdl;
      apply lookup_replicate in Hdl as [? _]; discriminate.
Qed.

Lemma fill_once_per_slot (N : nat) (base : list (CacheId * nat))
    (site : CacheId) (n : nat) (p : fitz.Page) (st : State) :
  once_per_slot N base st -> page_at st n = Some p ->
  once_per_slot N base (fill site n p st).
Proof.
  intros (Hop & Hnum & new & Hlog & Hnodup & Hin) Hp.
  split; [now apply fill_opened|].
  split; [now rewrite fill_num_pages|].
  unfold fill. destruct (cache site (self st) !! n) as [[dl|]|] eqn:Hs;
    try solve [exists new; auto].
  exists ((site, n) :: new). simpl. split; [now rewrite Hlog|]. split.
  - apply NoDup_cons. split; [|assumption].
    intros Hold. apply Hin in Hold as [dl Hdl]. congruence.
  - intros site' m. rewrite elem_of_cons, Hin.
    destruct (decide ((site', m) = (site, n))) as [Heq|Hne].
    + injection Heq as -> ->. rewrite cache_set_cache. split; [|now left].
      intros _. eexists. apply list_lookup_insert_eq.
      eapply lookup_lt_Some; eassumption.
    + assert (Hsame : cache site' (set_cache site
                        (<[n:=Some (fitz.getDisplayList p)]> (cache site (self st)))
                        (self st)) !! m
                      = cache site' (self st) !! m).
      { destruct (decide (site' = site)) as [->|Hsite].
        - rewrite cache_set_cache. apply list_lookup_insert_ne. congruence.
        - now rewrite cache_set_cache_other. }
      rewrite Hsame. split; [intros [Heq|H]; [contradiction|exact H]|now right].
Qed.

Lemma run_render_once_per_slot (N : nat) (base : list (CacheId * nat))
    (ops : list Op) (st : State) :
  Forall (fun op => is_render op = true) ops ->
  once_per_slot N base st ->
  once_per_slot N base (run ops st).
Proof.
  intros Hops. revert st. induction Hops as [|op ops Hop Hops IH]; intros st Hst.
  - exact Hst.
  - destruct (render_target op Hop) as (site & page_num & Htarget).
    simpl. rewrite (step_render_opened st op site page_num (proj1 Hst) Htarget).
    apply IH.
    destruct (py_index (num_pages (self st)) page_num) as [n|]; [|exact Hst].
    destruct (page_at st n) as [p|] eqn:Hp; [|exact Hst].
    now apply fill_once_per_slot.
Qed.

(** C6, as the claim states it, fails: after [get_page(0)] has built and
    stored the display list of page 0, the subsequent call
    [get_page_ppm_for_crop(0)] for the same index builds it again, because
    it looks in its own cache. *)
Lemma materialized_again_counterexample :
  materialized (world (run [OpGetPage 0 None None true] Example.with_a))
  = [(DisplayListCache, 0%nat)]
  /\ materialized
       (world (run [OpGetPage 0 None None true; OpGetPagePpmForCrop 0]
                 Example.with_a))
     = [(CropImageListCache, 0%nat); (DisplayListCache, 0%nat)].
Proof. split; reflexivity. Qed.

(** C6 (amended).  For every in-range page index, a slot of either cache is
    populated at most once per document lifetime, each operation counting
    for its own cache: through any sequence of page-rendering calls after a
    successful open, no slot is filled twice and every display list built
    sits in its slot; the first call of an operation for an index builds the
    display list exactly once and stores it in the slot of that operation's
    cache, and every subsequent call of that operation for the index finds
    the slot filled and changes nothing. *)
Theorem cache_slot_filled_once
    (st0 st : State) (doc_fname : string) (N : nat) (ops : list Op) :
  open_document doc_fname st0 = (Return N, st) ->
  Forall (fun op => is_render op = true) ops ->
  let st1 := run ops st in
  (exists new,
     materialized (world st1) = new ++ materialized (world st)
     /\ NoDup new
     /\ forall site n,
          (site, n) ∈ new <-> exists dl, cache site (self st1) !! n = Some (Some dl))
  /\ forall op site page_num,
       target op = Some (site, page_num) ->
       0 <= page_num < Z.of_nat N ->
       let n := Z.to_nat page_num in
       let st2 := snd (step op st1) in
       match cache site (self st1) !! n with
       | Some (Some dl) => st2 = st1
       | Some None =>
           exists p,
             page_at st1 n = Some p
             /\ materialized (world st2) = (site, n) :: materialized (world st1)
             /\ cache site (self st2) !! n = Some (Some (fitz.getDisplayList p))
       | None => False
       end.
Proof.
  intros Hopen Hops st1.
  assert (Hst : once_per_slot N (materialized (world st)) st).
  { destruct (open_document_cases st0 doc_fname)
      as [(doc_pages & _ & H)|[(code & w & H)|(exc & H)]];
      rewrite H in Hopen; try discriminate.
    injection Hopen as <- <-. apply fresh_once_per_slot. }
  pose proof (run_render_once_per_slot N _ ops st Hops Hst) as Hst1.
  fold st1 in Hst1. destruct Hst1 as (Hop1 & Hnum1 & Hlog1).
  split; [exact Hlog1|].
  intros op site page_num Htarget Hrange n st2.
  rewrite <- Hnum1 in Hrange.
  pose proof (py_index_in_range _ _ Hrange) as Hidx. fold n in Hidx.
  destruct (opened_page_at st1 n Hop1 (py_index_lt _ _ _ Hidx)) as [p Hp].
  unfold st2. rewrite (step_render_opened st1 op site page_num Hop1 Htarget).
  rewrite Hidx, Hp. cbn [snd]. unfold fill.
  destruct (opened_slot st1 site n p Hop1 Hp) as [Hs|Hs]; rewrite Hs.
  - exists p. split; [reflexivity|]. split; [reflexivity|].
    simpl. rewrite cache_set_cache. apply list_lookup_insert_eq.
    eapply lookup_lt_Some; eassumption.
  - reflexivity.
Qed.

Lemma cache_slot_filled_once_witness :
  let st1 := run [OpGetPage 0 None None true; OpGetPagePpmForCrop 0;
                  OpGetPage 0 (Some (306, 792)%Q) None true]
               Example.with_a in
  (exists new,
     materialized (world st1) = new ++ materialized (world Example.with_a)
     /\ NoDup new
     /\ forall site n,
          (site, n) ∈ new <-> exists dl, cache site (self st1) !! n = Some (Some dl))
  /\ forall op site page_num,
       target op = Some (site, page_num) ->
       0 <= page_num < Z.of_nat 2 ->
       let n := Z.to_nat page_num in
       let st2 := snd (step op st1) in
       match cache site (self st1) !! n with
       | Some (Some dl) => st2 = st1
       | Some None =>
           exists p,
             page_at st1 n = Some p
             /\ materialized (world st2) = (site, n) :: materialized (world st1)
             /\ cache site (self st2) !! n = Some (Some (fitz.getDisplayList p))
       | None => False
       end.
Proof.
  apply (cache_slot_filled_once Example.boot Example.with_a "a.pdf" 2%nat).
  - reflexivity.
  - repeat constructor.
Defined.

(** ** The size of the caches through the life cycle *)

Ltac shape_done :=
  repeat split; simpl; rewrite ?length_insert;
  solve [reflexivity | assumption | congruence].

Lemma py_setitem_Return {A} (l l' : list A) (i : Z) (v : A) :
  py_setitem l i v = Return l' -> length l' = length l.
Proof.
  unfold py_setitem. destruct (py_index (length l) i); [|discriminate].
  intros [= <-]. apply length_insert.
Qed.

Lemma get_page_ppm_for_crop_same_shape (st : State) (page_num : Z) :
  same_shape st (snd (get_page_ppm_for_crop page_num st)).
Proof.
  unfold same_shape, get_page_ppm_for_crop, bind, get_self, lift. simpl.
  destruct (py_getitem (page_crop_image_list_cache (self st)) page_num)
    as [[dl|]|exc|code]; simpl; try shape_done.
  unfold get_document, bind, get_self, raise, lift, ret. simpl.
  destruct (document (self st)) as [doc|] eqn:Hdoc; simpl; try shape_done.
  destruct (fitz.getitem doc page_num) as [page|exc|code]; simpl; try shape_done.
  destruct (py_setitem (page_crop_image_list_cache (self st)) page_num
              (Some (fitz.getDisplayList page))) as [l|exc|code] eqn:Hset;
    simpl; try shape_done.
  apply py_setitem_Return in Hset.
  destruct (py_getitem l page_num) as [[dl|]|exc|code]; simpl; shape_done.
Qed.

Lemma get_page_same_shape (st : State) (page_num : Z)
    (window_size : option (Q * Q)) (zoom : option (fitz.Point * Z * Z))
    (fit_screen : bool) :
  same_shape st (snd (get_page page_num window_size zoom fit_screen st)).
Proof.
  unfold same_shape, get_page, bind, get_self, lift. simpl.
  destruct (py_getitem (page_display_list_cache (self st)) page_num)
    as [[dl|]|exc|code]; simpl; try shape_done.
  - destruct (zoom_0 window_size (fitz.rect dl)); simpl; try shape_done.
    destruct zoom; shape_done.
  - unfold get_document, bind, get_self, raise, lift, ret. simpl.
    destruct (document (self st)) as [doc|] eqn:Hdoc; simpl; try shape_done.
    destruct (fitz.getitem doc page_num) as [page|exc|code]; simpl; try shape_done.
    destruct (py_setitem (page_display_list_cache (self st)) page_num
                (Some (fitz.getDisplayList page))) as [l|exc|code] eqn:Hset;
      simpl; try shape_done.
    apply py_setitem_Return in Hset.
    destruct (py_getitem l page_num) as [[dl|]|exc|code]; simpl; try shape_done.
    destruct (zoom_0 window_size (fitz.rect dl)); simpl; try shape_done.
    destruct zoom; shape_done.
Qed.

Lemma same_shape_sized (st st' : State) : same_shape st st' -> sized st -> sized st'.
Proof.
  intros (Hdoc & Hnum & Hl1 & Hl2) (Hs1 & Hs2 & Hs3).
  unfold sized, is_open in *. rewrite Hdoc, Hnum, Hl1, Hl2. auto.
Qed.

(** The three ways [close_document] can end. *)
Lemma close_document_cases (st : State) :
  (exists doc,
     document (self st) = Some doc /\ fitz.is_closed doc = false
     /\ close_document st
        = (Return tt,
           mkState
             (mkDocumentPages (Some (fitz.mkDocument (fitz.pages doc) true)) 0 [] [])
             (world st)))
  \/ (exists exc, close_document st = (Raise exc, st)).
Proof.
  unfold close_document, get_document, bind, get_self, raise, lift, ret, fitz.close.
  simpl. destruct (document (self st)) as [doc|] eqn:Hdoc; simpl.
  - destruct (fitz.is_closed doc) eqn:Hcl; simpl.
    + right. eexists. reflexivity.
    + left. exists doc. auto.
  - right. eexists. reflexivity.
Qed.

Lemma step_sized (op : Op) (st : State) : sized st -> sized (snd (step op st)).
Proof.
  intros Hst. destruct op; simpl.
  - repeat split; reflexivity.
  - destruct (open_document_cases st doc_fname)
      as [(doc_pages & _ & H)|[(code & w & H)|(exc & H)]]; rewrite H; simpl.
    + repeat split; simpl; try apply length_replicate. discriminate.
    + exact Hst.
    + exact Hst.
  - destruct (close_document_cases st) as [(doc & _ & _ & H)|(exc & H)];
      rewrite H; simpl.
    + repeat split; reflexivity.
    + exact Hst.
  - eapply same_shape_sized; [apply get_page_ppm_for_crop_same_shape|exact Hst].
  - eapply same_shape_sized; [apply get_page_same_shape|exact Hst].
Qed.

Lemma run_sized (ops : list Op) (st : State) : sized st -> sized (run ops st).
Proof.
  revert st. induction ops as [|op ops IH]; intros st Hst; [exact Hst|].
  simpl. pose proof (step_sized op st Hst) as Hstep.
  destruct (step op st) as [[|] st']; simpl in Hstep; [now apply IH|exact Hstep].
Qed.

Lemma new_DocumentPages_sized (w : World) : sized (new_DocumentPages w).
Proof. repeat split; reflexivity. Qed.

Lemma close_document_open (st : State) :
  is_open st = true ->
  exists doc,
    document (self st) = Some doc
    /\ close_document st
       = (Return tt,
          mkState
            (mkDocumentPages (Some (fitz.mkDocument (fitz.pages doc) true)) 0 [] [])
            (world st)).
Proof.
  unfold is_open. intros Hopen.
  destruct (close_document_cases st) as [(doc & Hdoc & _ & H)|(exc & H)].
  - exists doc. auto.
  - exfalso. revert H.
    unfold close_document, get_document, bind, get_self, raise, lift, ret, fitz.close.
    simpl. destruct (document (self st)) as [doc|]; [|discriminate].
    destruct (fitz.is_closed doc); discriminate.
Qed.

(** C7.  Through every sequence of operations on a new object, both caches
    have exactly [num_pages] entries, and exactly 0 while no document is open
    (before any open and after a close).  In particular [close_document] on
    an open document returns with [num_pages] reset to 0 and both caches
    empty, and a successful [open_document], whatever the earlier documents
    left in the caches, gives [num_pages] the page count of the new document
    and both caches that many slots, all empty. *)
Theorem caches_sized_through_life_cycle (w : World) (ops : list Op) :
  let st := run ops (new_DocumentPages w) in
  (num_pages (self (new_DocumentPages w)) = 0%nat
   /\ page_display_list_cache (self (new_DocumentPages w)) = []
   /\ page_crop_image_list_cache (self (new_DocumentPages w)) = [])
  /\ sized st
  /\ (is_open st = false ->
      length (page_display_list_cache (self st)) = 0%nat
      /\ length (page_crop_image_list_cache (self st)) = 0%nat)
  /\ (is_open st = true ->
      exists st',
        close_document st = (Return tt, st')
        /\ is_open st' = false
        /\ num_pages (self st') = 0%nat
        /\ page_display_list_cache (self st') = []
        /\ page_crop_image_list_cache (self st') = [])
  /\ (forall doc_fname doc_pages,
        files (world st) doc_fname = fitz.Opened doc_pages ->
        exists st',
          open_document doc_fname st = (Return (length doc_pages), st')
          /\ is_open st' = true
          /\ num_pages (self st') = length doc_pages
          /\ page_display_list_cache (self st') = replicate (length doc_pages) None
          /\ page_crop_image_list_cache (self st') = replicate (length doc_pages) None).
Proof.
  intros st.
  assert (Hsized : sized st) by apply run_sized, new_DocumentPages_sized.
  split; [repeat split|]. split; [exact Hsized|]. split; [|split].
  - intros Hclosed. destruct Hsized as (Hl1 & Hl2 & Hzero).
    rewrite Hl1, Hl2. split; now apply Hzero.
  - intros Hopen. destruct (close_document_open st Hopen) as (doc & _ & Hclose).
    eexists. split; [exact Hclose|]. repeat split.
  - intros doc_fname doc_pages Hfile. eexists.
    split; [now apply open_document_Opened|]. repeat split.
Qed.

(** Open a two-page document, render both ways, close it: the next open of
    a one-page document starts from empty slots. *)
Lemma caches_sized_through_life_cycle_witness :
  exists st',
    open_document "b.pdf"
      (run [OpOpenDocument "a.pdf"; OpGetPage 0 None None true;
            OpGetPagePpmForCrop 1; OpCloseDocument]
         (new_DocumentPages (mkWorld Example.disk "" [])))
    = (Return 1%nat, st')
    /\ is_open st' = true
    /\ num_pages (self st') = 1%nat
    /\ page_display_list_cache (self st') = [None]
    /\ page_crop_image_list_cache (self st') = [None].
Proof.
  apply (proj2 (proj2 (proj2 (proj2
    (caches_sized_through_life_cycle (mkWorld Example.disk "" [])
       [OpOpenDocument "a.pdf"; OpGetPage 0 None None true;
        OpGetPagePpmForCrop 1; OpCloseDocument])))) "b.pdf"%string [Example.card]).
  reflexivity.
Defined.

(** * Further properties *)

(** ** The module body: the version gate *)

Lemma split_dot_cons (s : string) :
  exists piece pieces, split_dot s = piece :: pieces.
Proof.
  destruct s as [|ch rest]; simpl; [eauto|].
  destruct (Ascii.eqb ch "."); [eauto|].
  destruct (split_dot rest); eauto.
Qed.

Lemma join_dot_String (ch : ascii) (piece : string) (pieces : list string) :
  join_dot (String ch piece :: pieces) = String ch (join_dot (piece :: pieces)).
Proof. destruct pieces; reflexivity. Qed.

(** Splitting a string at its dots and joining the pieces with dots
    gives the string back; there is always at least one piece, and no piece
    contains a dot. *)
Theorem split_dot_join_dot (s : string) :
  join_dot (split_dot s) = s
  /\ split_dot s <> []
  /\ Forall (fun piece => forall pre post,
               piece <> (pre ++ String "." post)%string) (split_dot s).
Proof.
  split; [|split].
  - induction s as [|ch rest IH]; [reflexivity|]. simpl.
    destruct (Ascii.eqb ch ".") eqn:Hdot.
    + apply Ascii.eqb_eq in Hdot as ->.
      destruct (split_dot_cons rest) as (piece & pieces & Hrest).
      rewrite Hrest in IH |- *.
      change (join_dot (EmptyString :: piece :: pieces))
        with (String "." (join_dot (piece :: pieces))).
      now rewrite IH.
    + destruct (split_dot_cons rest) as (piece & pieces & Hrest).
      rewrite Hrest in IH |- *. now rewrite join_dot_String, IH.
  - destruct (split_dot_cons s) as (piece & pieces & ->). discriminate.
  - induction s as [|ch rest IH]; simpl.
    + constructor; [|constructor]. intros [|? ?] post; discriminate.
    + destruct (Ascii.eqb ch ".") eqn:Hdot.
      * constructor; [|exact IH]. intros [|? ?] post; discriminate.
      * destruct (split_dot_cons rest) as (piece & pieces & Hrest).
        rewrite Hrest in IH |- *.
        apply Forall_cons in IH as [Hpiece Hpieces].
        constructor; [|exact Hpieces].
        intros [|ch' pre] post; simpl; intros [= -> Heq].
        -- now rewrite Ascii.eqb_refl in Hdot.
        -- now apply (Hpiece pre post).
Qed.

(** What [version >= [1, 14, 5]] amounts to, by the number of components. *)
Lemma py_list_ge_1_14_5 (version : list Z) :
  py_list_ge version [1; 14; 5] = true
  <-> match version with
      | [] => False
      | [a] => 1 < a
      | [a; b] => 1 < a \/ (a = 1 /\ 14 < b)
      | a :: b :: c :: _ => 1 < a \/ (a = 1 /\ (14 < b \/ (b = 14 /\ 5 <= c)))
      end.
Proof.
  destruct version as [|a [|b [|c rest]]]; simpl.
  - split; [discriminate|tauto].
  - destruct (a =? 1) eqn:Ha; [apply Z.eqb_eq in Ha|apply Z.eqb_neq in Ha];
      rewrite ?Z.ltb_lt; split; try discriminate; lia.
  - destruct (a =? 1) eqn:Ha; [apply Z.eqb_eq in Ha|apply Z.eqb_neq in Ha];
      [destruct (b =? 14) eqn:Hb;
       [apply Z.eqb_eq in Hb|apply Z.eqb_neq in Hb]|];
      rewrite ?Z.ltb_lt; split; try discriminate; lia.
  - destruct (a =? 1) eqn:Ha; [apply Z.eqb_eq in Ha|apply Z.eqb_neq in Ha];
      [destruct (b =? 14) eqn:Hb;
       [apply Z.eqb_eq in Hb|apply Z.eqb_neq in Hb];
       [destruct (c =? 5) eqn:Hc;
        [apply Z.eqb_eq in Hc|apply Z.eqb_neq in Hc]|]|];
      rewrite ?Z.ltb_lt; try (destruct rest); split; try discriminate;
      intros; try reflexivity; lia.
Qed.

Lemma module_body_Imported (int : string -> Outcome Z) (VersionBind : string)
    (version : list Z) :
  int_each int (split_dot VersionBind) = Return version ->
  module_body int (Imported VersionBind)
  = Return
      (if py_list_ge version [1; 14; 5]
       then mkModuleGlobals true (Some BoundToClass)
       else mkModuleGlobals false (Some BoundToNone)).
Proof.
  intros Hversion. unfold module_body, import_fitz. rewrite Hversion. simpl.
  destruct (py_list_ge version [1; 14; 5]); reflexivity.
Qed.

(** X1.  When PyMuPDF is importable and every component of its
    [VersionBind] converts, the module sets [has_mupdf] and defines the class
    exactly when the version is at least 1.14.5 in the order of Python lists:
    a three-component version is compared component by component, a shorter
    one that is a prefix of 1.14.5 (as 1.14) is refused, and components
    after the third only matter through the first three. *)
Theorem module_body_version_gate (int : string -> Outcome Z)
    (VersionBind : string) (version : list Z) :
  int_each int (split_dot VersionBind) = Return version ->
  exists ok : bool,
    module_body int (Imported VersionBind)
    = Return (mkModuleGlobals ok
                (Some (if ok then BoundToClass else BoundToNone)))
    /\ (ok = true
        <-> match version with
            | [] => False
            | [a] => 1 < a
            | [a; b] => 1 < a \/ (a = 1 /\ 14 < b)
            | a :: b :: c :: _ =>
                1 < a \/ (a = 1 /\ (14 < b \/ (b = 14 /\ 5 <= c)))
            end).
Proof.
  intros Hversion. exists (py_list_ge version [1; 14; 5]).
  split; [|apply py_list_ge_1_14_5].
  rewrite (module_body_Imported int VersionBind version Hversion).
  destruct (py_list_ge version [1; 14; 5]); reflexivity.
Qed.

Lemma module_body_version_gate_witness :
  exists ok : bool,
    module_body digits_int (Imported "1.14") 
    = Return (mkModuleGlobals ok
                (Some (if ok then BoundToClass else BoundToNone)))
    /\ (ok = true <-> 1 < 1 \/ (1 = 1 /\ 14 < 14)).
Proof.
  apply (module_body_version_gate digits_int "1.14" [1; 14]). reflexivity.
Defined.

(** X2.  Whenever the module body completes, [DocumentPages] is bound: to
    the class when [has_mupdf] is true and to [None] when it is false. *)
Theorem module_body_class_iff_has_mupdf (int : string -> Outcome Z)
    (reply : ImportReply) (globals : ModuleGlobals) :
  module_body int reply = Return globals ->
  DocumentPages_binding globals
  = Some (if has_mupdf globals then BoundToClass else BoundToNone).
Proof.
  unfold module_body, import_fitz. destruct reply as [VersionBind| |exc]; simpl.
  - destruct (int_each int (split_dot VersionBind)) as [version|exc|code];
      simpl; try discriminate.
    destruct (py_list_ge version [1; 14; 5]); simpl; intros [= <-]; reflexivity.
  - intros [= <-]. reflexivity.
  - discriminate.
Qed.

Lemma module_body_class_iff_has_mupdf_witness :
  DocumentPages_binding (mkModuleGlobals false (Some BoundToNone))
  = Some (if has_mupdf (mkModuleGlobals false (Some BoundToNone))
          then BoundToClass else BoundToNone).
Proof.
  apply (module_body_class_iff_has_mupdf digits_int ImportError_raised).
  reflexivity.
Defined.

Lemma int_each_failure (int : string -> Outcome Z) (before after : list string)
    (bad : string) (ns : list Z) (exc : PyExc) :
  int_each int before = Return ns ->
  int bad = Raise exc ->
  int_each int (before ++ bad :: after) = Raise exc.
Proof.
  revert ns. induction before as [|piece before IH]; intros ns Hbefore Hbad.
  - simpl. now rewrite Hbad.
  - simpl in Hbefore |- *. destruct (int piece) as [n|e|c]; try discriminate.
    simpl in Hbefore |- *.
    destruct (int_each int before) as [ns'|e|c] eqn:Hrest; try discriminate.
    now rewrite (IH ns' eq_refl Hbad).
Qed.

(** X3.  Only [ImportError] is handled at import time: when a component of
    [VersionBind] does not convert, the exception of the first such
    component leaves the module body, which binds neither [has_mupdf] to
    false nor [DocumentPages] to [None]. *)
Theorem module_body_conversion_failure (int : string -> Outcome Z)
    (VersionBind : string) (before after : list string) (bad : string)
    (ns : list Z) (exc : PyExc) :
  split_dot VersionBind = before ++ bad :: after ->
  int_each int before = Return ns ->
  int bad = Raise exc ->
  module_body int (Imported VersionBind) = Raise exc.
Proof.
  intros Hsplit Hbefore Hbad. unfold module_body, import_fitz.
  now rewrite Hsplit, (int_each_failure int before after bad ns exc Hbefore Hbad).
Qed.

Lemma module_body_conversion_failure_witness :
  module_body digits_int (Imported "1.18.x") = Raise ValueError.
Proof.
  apply (module_body_conversion_failure digits_int "1.18.x"
           ["1"%string; "18"%string] [] "x" [1; 18] ValueError); reflexivity.
Defined.

(** ** The states a sequence of calls can reach *)

Lemma py_index_None_iff (len : nat) (i : Z) :
  py_index len i = None <-> i < - Z.of_nat len \/ Z.of_nat len <= i.
Proof.
  unfold py_index.
  destruct (0 <=? i) eqn:E1, (i <? Z.of_nat len) eqn:E2; simpl;
    try (split; [discriminate|lia]);
    destruct (- Z.of_nat len <=? i) eqn:E3, (i <? 0) eqn:E4; simpl;
    split; try discriminate; try reflexivity; lia.
Qed.

Lemma py_index_negative (len : nat) (i : Z) :
  - Z.of_nat len <= i < 0 -> py_index len i = py_index len (i + Z.of_nat len).
Proof.
  intros Hi. rewrite (py_index_in_range len (i + Z.of_nat len)) by lia.
  unfold py_index.
  destruct (0 <=? i) eqn:E1; [lia|]. simpl.
  destruct (- Z.of_nat len <=? i) eqn:E3; [|lia].
  destruct (i <? 0) eqn:E4; [reflexivity|lia].
Qed.

Lemma opened_world (st : State) (w : World) :
  opened st -> opened (mkState (self st) w).
Proof. intros Hop. exact Hop. Qed.

Lemma render_blank (st : State) (op : Op) (site : CacheId) (page_num : Z) :
  target op = Some (site, page_num) ->
  py_index (length (cache site (self st))) page_num = None ->
  outcome_of op st = Raise IndexError /\ step op st = (true, st).
Proof.
  intros Htarget Hidx.
  destruct op; simpl in Htarget; try discriminate; injection Htarget as <- <-;
    simpl in Hidx |- *.
  - now rewrite get_page_ppm_for_crop_out_of_range.
  - now rewrite get_page_out_of_range.
Qed.

Lemma step_consistent (op : Op) (st : State) :
  consistent st -> consistent (snd (step op st)).
Proof.
  intros Hst. destruct (is_render op) eqn:Hrender.
  - destruct (render_target op Hrender) as (site & page_num & Htarget).
    destruct Hst as [(Hnum & Hd & Hc)|Hop].
    + destruct (render_blank st op site page_num Htarget) as [_ ->].
      * apply py_index_None_iff.
        destruct site; simpl; [rewrite Hd|rewrite Hc]; simpl; lia.
      * left. auto.
    + rewrite (step_render_opened st op site page_num Hop Htarget). simpl.
      destruct (py_index (num_pages (self st)) page_num) as [n|]; [|now right].
      destruct (page_at st n) as [p|] eqn:Hp; [|now right].
      right. now apply fill_opened.
  - destruct op; try discriminate; simpl.
    + left. repeat split.
    + destruct (open_document_cases st doc_fname)
        as [(doc_pages & _ & H)|[(code & w & H)|(exc & H)]]; rewrite H; simpl.
      * right. apply fresh_opened.
      * exact Hst.
      * exact Hst.
    + destruct (close_document_cases st) as [(doc & _ & _ & H)|(exc & H)];
        rewrite H; simpl.
      * left. repeat split.
      * exact Hst.
Qed.

Lemma run_consistent (ops : list Op) (st : State) :
  consistent st -> consistent (run ops st).
Proof.
  revert st. induction ops as [|op ops IH]; intros st Hst; [exact Hst|].
  simpl. pose proof (step_consistent op st Hst) as Hstep.
  destruct (step op st) as [[|] st']; simpl in Hstep; [now apply IH|exact Hstep].
Qed.

Lemma new_DocumentPages_consistent (w : World) : consistent (new_DocumentPages w).
Proof. left. repeat split. Qed.

Lemma consistent_slot (st : State) (site : CacheId) (n : nat) (dl : fitz.DisplayList) :
  consistent st ->
  cache site (self st) !! n = Some (Some dl) ->
  exists p, page_at st n = Some p /\ dl = fitz.getDisplayList p.
Proof.
  intros [(_ & Hd & Hc)|(doc & Hdoc & _ & _ & [_ Hc1] & [_ Hc2])] Hslot.
  - destruct site; simpl in Hslot; [rewrite Hd in Hslot|rewrite Hc in Hslot];
      discriminate.
  - unfold page_at. rewrite Hdoc. destruct site; simpl in Hslot; eauto.
Qed.

(** X4.  No stale entry: after any sequence of calls on a new object
    (opens of any files, closes, direct cache clears, rendering calls with
    any arguments, failed calls included), a filled slot of either cache
    holds the display list of the page at that position of the document the
    object currently holds. *)
Theorem reachable_slots_current (w : World) (ops : list Op) :
  let st := run ops (new_DocumentPages w) in
  forall site n dl,
    cache site (self st) !! n = Some (Some dl) ->
    exists p, page_at st n = Some p /\ dl = fitz.getDisplayList p.
Proof.
  intros st site n dl. apply consistent_slot.
  apply run_consistent, new_DocumentPages_consistent.
Qed.

Lemma reachable_slots_current_witness :
  exists p,
    page_at (run [OpOpenDocument "b.pdf"; OpCloseDocument; OpOpenDocument "a.pdf";
                  OpGetPage 1 None None true]
               (new_DocumentPages (mkWorld Example.disk "" []))) 1
    = Some p
    /\ fitz.getDisplayList Example.card = fitz.getDisplayList p.
Proof.
  apply (reachable_slots_current (mkWorld Example.disk "" [])
           [OpOpenDocument "b.pdf"; OpCloseDocument; OpOpenDocument "a.pdf";
            OpGetPage 1 None None true]
           DisplayListCache 1%nat (fitz.getDisplayList Example.card)).
  reflexivity.
Defined.

Lemma opened_is_open (st : State) : opened st -> is_open st = true.
Proof. intros (doc & Hdoc & Hcl & _). unfold is_open. now rewrite Hdoc, Hcl. Qed.

(** X5.  On every state a sequence of calls can reach, a rendering call
    never reaches a missing or a closed document: either its index is
    outside the page count, and it raises [IndexError] at the cache lookup
    without changing anything; or a document is open and holds a page at that
    index, and all the call does to the object is to build or reuse the
    display list of that page in its own cache. *)
Theorem render_on_reachable_state (w : World) (ops : list Op) (op : Op)
    (site : CacheId) (page_num : Z) :
  target op = Some (site, page_num) ->
  let st := run ops (new_DocumentPages w) in
  (py_index (num_pages (self st)) page_num = None
   /\ outcome_of op st = Raise IndexError
   /\ snd (step op st) = st)
  \/ (exists n p,
        py_index (num_pages (self st)) page_num = Some n
        /\ is_open st = true
        /\ page_at st n = Some p
        /\ snd (step op st) = fill site n p st
        /\ cache site (self (snd (step op st))) !! n
           = Some (Some (fitz.getDisplayList p))).
Proof.
  intros Htarget st.
  assert (Hst : consistent st) by apply run_consistent, new_DocumentPages_consistent.
  destruct Hst as [(Hnum & Hd & Hc)|Hop].
  - left. rewrite Hnum.
    assert (Hidx : py_index 0 page_num = None) by (apply py_index_None_iff; simpl; lia).
    split; [exact Hidx|].
    destruct (render_blank st op site page_num Htarget) as [Hout Hstep].
    + destruct site; simpl; [rewrite Hd|rewrite Hc]; exact Hidx.
    + now rewrite Hstep.
  - destruct (py_index (num_pages (self st)) page_num) as [n|] eqn:Hidx.
    + right. destruct (opened_page_at st n Hop (py_index_lt _ _ _ Hidx)) as [p Hp].
      exists n, p. split; [reflexivity|]. split; [now apply opened_is_open|].
      split; [exact Hp|].
      rewrite (step_render_opened st op site page_num Hop Htarget).
      rewrite Hidx, Hp. cbn [snd]. split; [reflexivity|].
      unfold fill. destruct (opened_slot st site n p Hop Hp) as [Hs|Hs]; rewrite Hs.
      * cbn [self]. rewrite cache_set_cache. apply list_lookup_insert_eq.
        eapply lookup_lt_Some; eassumption.
      * exact Hs.
    + left. split; [reflexivity|].
      destruct (render_blank st op site page_num Htarget) as [Hout Hstep].
      * now rewrite (opened_lengths st site Hop).
      * now rewrite Hstep.
Qed.

Lemma render_on_reachable_state_witness :
  let st := run [OpOpenDocument "a.pdf"; OpCloseDocument]
              (new_DocumentPages (mkWorld Example.disk "" [])) in
  (py_index (num_pages (self st)) 0 = None
   /\ outcome_of (OpGetPage 0 None None true) st = Raise IndexError
   /\ snd (step (OpGetPage 0 None None true) st) = st)
  \/ (exists n p,
        py_index (num_pages (self st)) 0 = Some n
        /\ is_open st = true
        /\ page_at st n = Some p
        /\ snd (step (OpGetPage 0 None None true) st) = fill DisplayListCache n p st
        /\ cache DisplayListCache
             (self (snd (step (OpGetPage 0 None None true) st))) !! n
           = Some (Some (fitz.getDisplayList p))).
Proof.
  apply (render_on_reachable_state (mkWorld Example.disk "" [])
           [OpOpenDocument "a.pdf"; OpCloseDocument]
           (OpGetPage 0 None None true) DisplayListCache 0).
  reflexivity.
Defined.

(** X6.  Outside the lifetime of a document (before any open, after a
    close), whatever calls came before: every rendering call raises
    [IndexError] and changes nothing, and [close_document] raises without
    changing anything. *)
Theorem no_document_no_rendering (w : World) (ops : list Op) :
  let st := run ops (new_DocumentPages w) in
  is_open st = false ->
  (forall op, is_render op = true ->
     outcome_of op st = Raise IndexError /\ snd (step op st) = st)
  /\ exists exc, close_document st = (Raise exc, st).
Proof.
  intros st Hclosed.
  assert (Hsized : sized st) by apply run_sized, new_DocumentPages_sized.
  destruct Hsized as (Hl1 & Hl2 & Hzero). specialize (Hzero Hclosed).
  split.
  - intros op Hrender. destruct (render_target op Hrender) as (site & page_num & Htarget).
    destruct (render_blank st op site page_num Htarget) as [Hout Hstep].
    + apply py_index_None_iff. destruct site; simpl; [rewrite Hl1|rewrite Hl2]; lia.
    + now rewrite Hstep.
  - destruct (close_document_cases st) as [(doc & Hdoc & Hcl & _)|Hraise];
      [|exact Hraise].
    unfold is_open in Hclosed. rewrite Hdoc, Hcl in Hclosed. discriminate.
Qed.

Lemma no_document_no_rendering_witness :
  let st := run [OpOpenDocument "a.pdf"; OpGetPage 0 None None true; OpCloseDocument]
              (new_DocumentPages (mkWorld Example.disk "" [])) in
  (forall op, is_render op = true ->
     outcome_of op st = Raise IndexError /\ snd (step op st) = st)
  /\ exists exc, close_document st = (Raise exc, st).
Proof.
  apply (no_document_no_rendering (mkWorld Example.disk "" [])
           [OpOpenDocument "a.pdf"; OpGetPage 0 None None true; OpCloseDocument]).
  reflexivity.
Defined.

(** X7.  Bounds: when both caches have [num_pages] entries, a page number
    below [-num_pages] or from [num_pages] on makes both rendering calls
    raise [IndexError]; nothing is changed and no display list is built. *)
Theorem render_index_out_of_bounds (st : State) (page_num : Z)
    (window_size : option (Q * Q)) (zoom : option (fitz.Point * Z * Z))
    (fit_screen : bool) :
  sized st ->
  page_num < - Z.of_nat (num_pages (self st))
  \/ Z.of_nat (num_pages (self st)) <= page_num ->
  get_page page_num window_size zoom fit_screen st = (Raise IndexError, st)
  /\ get_page_ppm_for_crop page_num st = (Raise IndexError, st).
Proof.
  intros (Hl1 & Hl2 & _) Hout. split.
  - apply get_page_out_of_range. rewrite Hl1. now apply py_index_None_iff.
  - apply get_page_ppm_for_crop_out_of_range. rewrite Hl2. now apply py_index_None_iff.
Qed.

Lemma render_index_out_of_bounds_witness :
  get_page (-3) None None true Example.with_a = (Raise IndexError, Example.with_a)
  /\ get_page_ppm_for_crop (-3) Example.with_a = (Raise IndexError, Example.with_a).
Proof.
  apply (render_index_out_of_bounds Example.with_a (-3) None None true).
  - repeat split. discriminate.
  - left. vm_compute. reflexivity.
Defined.

(** X8.  Negative page numbers count from the end: on an open document,
    for [-num_pages <= page_num < 0] both rendering calls do exactly what they
    do for [page_num + num_pages]. *)
Theorem render_negative_index (st : State) (page_num : Z)
    (window_size : option (Q * Q)) (zoom : option (fitz.Point * Z * Z))
    (fit_screen : bool) :
  opened st ->
  - Z.of_nat (num_pages (self st)) <= page_num < 0 ->
  get_page page_num window_size zoom fit_screen st
  = get_page (page_num + Z.of_nat (num_pages (self st))) window_size zoom fit_screen st
  /\ get_page_ppm_for_crop page_num st
     = get_page_ppm_for_crop (page_num + Z.of_nat (num_pages (self st))) st.
Proof.
  intros Hop Hneg.
  pose proof (py_index_negative _ _ Hneg) as Hsame.
  assert (Hidx : py_index (num_pages (self st))
                   (page_num + Z.of_nat (num_pages (self st)))
                 = Some (Z.to_nat (page_num + Z.of_nat (num_pages (self st)))))
    by (apply py_index_in_range; lia).
  rewrite Hidx in Hsame.
  destruct (opened_page_at st _ Hop (py_index_lt _ _ _ Hidx)) as [p Hp].
  split.
  - rewrite (get_page_opened st page_num _ p window_size zoom fit_screen Hop Hsame Hp).
    now rewrite (get_page_opened st _ _ p window_size zoom fit_screen Hop Hidx Hp).
  - rewrite (get_page_ppm_for_crop_opened st page_num _ p Hop Hsame Hp).
    now rewrite (get_page_ppm_for_crop_opened st _ _ p Hop Hidx Hp).
Qed.

Lemma render_negative_index_witness :
  get_page (-1) None None true Example.with_a
  = get_page (-1 + Z.of_nat (num_pages (self Example.with_a))) None None true
      Example.with_a
  /\ get_page_ppm_for_crop (-1) Example.with_a
     = get_page_ppm_for_crop (-1 + Z.of_nat (num_pages (self Example.with_a)))
         Example.with_a.
Proof.
  apply (render_negative_index Example.with_a (-1) None None true).
  - exact example_with_a_opened.
  - vm_compute. split; [discriminate|reflexivity].
Defined.

(** ** How rendering calls compose *)

Lemma fill_idempotent (site : CacheId) (n : nat) (p : fitz.Page) (st : State) :
  fill site n p (fill site n p st) = fill site n p st.
Proof.
  unfold fill. destruct (cache site (self st) !! n) as [[dl|]|] eqn:Hs;
    rewrite ?Hs; try reflexivity.
  cbn [self]. rewrite cache_set_cache.
  rewrite list_lookup_insert_eq by (eapply lookup_lt_Some; eassumption).
  reflexivity.
Qed.

Lemma consistent_render_cases (st : State) (page_num : Z) :
  consistent st ->
  (py_index (length (page_display_list_cache (self st))) page_num = None
   /\ py_index (length (page_crop_image_list_cache (self st))) page_num = None)
  \/ (exists n p,
        opened st
        /\ py_index (num_pages (self st)) page_num = Some n
        /\ page_at st n = Some p).
Proof.
  intros [(Hnum & Hd & Hc)|Hop].
  - left. rewrite Hd, Hc. split; apply py_index_None_iff; simpl; lia.
  - destruct (py_index (num_pages (self st)) page_num) as [n|] eqn:Hidx.
    + right. destruct (opened_page_at st n Hop (py_index_lt _ _ _ Hidx)) as [p Hp].
      eauto.
    + left. pose proof (opened_lengths st DisplayListCache Hop) as H1.
      pose proof (opened_lengths st CropImageListCache Hop) as H2.
      simpl in H1, H2. now rewrite H1, H2.
Qed.

(** X9.  Repeating a rendering call that takes no zoom directive is
    harmless: on every state a sequence of calls can reach, the same
    [get_page] call without zoom, or the same [get_page_ppm_for_crop] call,
    made again right away has the same outcome as the first and leaves the
    state the first one left.  (A zoom directive carries a point that the
    call moves, so a repeated zoom call is another call.) *)
Theorem render_twice (w : World) (ops : list Op) (page_num : Z)
    (window_size : option (Q * Q)) (fit_screen : bool) :
  let st := run ops (new_DocumentPages w) in
  get_page page_num window_size None fit_screen
    (snd (get_page page_num window_size None fit_screen st))
  = get_page page_num window_size None fit_screen st
  /\ get_page_ppm_for_crop page_num (snd (get_page_ppm_for_crop page_num st))
     = get_page_ppm_for_crop page_num st.
Proof.
  intros st.
  assert (Hst : consistent st) by apply run_consistent, new_DocumentPages_consistent.
  destruct (consistent_render_cases st page_num Hst)
    as [[Hd Hc]|(n & p & Hop & Hidx & Hp)].
  - rewrite (get_page_out_of_range st page_num window_size None fit_screen Hd).
    rewrite (get_page_ppm_for_crop_out_of_range st page_num Hc). simpl.
    rewrite (get_page_out_of_range st page_num window_size None fit_screen Hd).
    now rewrite (get_page_ppm_for_crop_out_of_range st page_num Hc).
  - rewrite (get_page_opened st page_num n p window_size None fit_screen Hop Hidx Hp).
    rewrite (get_page_ppm_for_crop_opened st page_num n p Hop Hidx Hp).
    cbn [snd]. split.
    + rewrite (get_page_opened _ page_num n p window_size None fit_screen
                 (fill_opened DisplayListCache n p st Hop Hp)).
      * now rewrite fill_idempotent.
      * now rewrite fill_num_pages.
      * now rewrite fill_page_at.
    + rewrite (get_page_ppm_for_crop_opened _ page_num n p
                 (fill_opened CropImageListCache n p st Hop Hp)).
      * now rewrite fill_idempotent.
      * now rewrite fill_num_pages.
      * now rewrite fill_page_at.
Qed.

Lemma run_render_opened (ops : list Op) (st : State) :
  Forall (fun op => is_render op = true) ops ->
  opened st ->
  opened (run ops st)
  /\ num_pages (self (run ops st)) = num_pages (self st)
  /\ forall n, page_at (run ops st) n = page_at st n.
Proof.
  intros Hops. revert st. induction Hops as [|op ops Hop Hops IH]; intros st Hst.
  - auto.
  - destruct (render_target op Hop) as (site & page_num & Htarget).
    simpl. rewrite (step_render_opened st op site page_num Hst Htarget).
    destruct (py_index (num_pages (self st)) page_num) as [n|]; [|now apply IH].
    destruct (page_at st n) as [p|] eqn:Hp; [|now apply IH].
    destruct (IH (fill site n p st) (fill_opened site n p st Hst Hp))
      as (Hopened & Hnum & Hpages).
    split; [exact Hopened|]. split; [now rewrite Hnum, fill_num_pages|].
    intros m. now rewrite Hpages, fill_page_at.
Qed.

(** X10.  The caches do not show in the results: on an open document, the
    outcome of a [get_page] call without zoom directive and the outcome of a
    [get_page_ppm_for_crop] call are the same after any sequence of rendering
    calls, zoom calls among them, as before it. *)
Theorem render_result_independent_of_history (st : State) (ops : list Op)
    (page_num : Z) (window_size : option (Q * Q)) (fit_screen : bool) :
  opened st ->
  Forall (fun op => is_render op = true) ops ->
  fst (get_page page_num window_size None fit_screen (run ops st))
  = fst (get_page page_num window_size None fit_screen st)
  /\ fst (get_page_ppm_for_crop page_num (run ops st))
     = fst (get_page_ppm_for_crop page_num st).
Proof.
  intros Hop Hops.
  destruct (run_render_opened ops st Hops Hop) as (Hop' & Hnum & Hpages).
  destruct (py_index (num_pages (self st)) page_num) as [n|] eqn:Hidx.
  - destruct (opened_page_at st n Hop (py_index_lt _ _ _ Hidx)) as [p Hp].
    assert (Hidx' : py_index (num_pages (self (run ops st))) page_num = Some n)
      by now rewrite Hnum.
    assert (Hp' : page_at (run ops st) n = Some p) by now rewrite Hpages.
    rewrite (get_page_opened _ page_num n p window_size None fit_screen Hop' Hidx' Hp').
    rewrite (get_page_opened st page_num n p window_size None fit_screen Hop Hidx Hp).
    rewrite (get_page_ppm_for_crop_opened _ page_num n p Hop' Hidx' Hp').
    rewrite (get_page_ppm_for_crop_opened st page_num n p Hop Hidx Hp).
    split; reflexivity.
  - pose proof (opened_lengths st DisplayListCache Hop) as H1.
    pose proof (opened_lengths st CropImageListCache Hop) as H2.
    pose proof (opened_lengths _ DisplayListCache Hop') as H1'.
    pose proof (opened_lengths _ CropImageListCache Hop') as H2'.
    simpl in H1, H2, H1', H2'.
    rewrite !get_page_out_of_range, !get_page_ppm_for_crop_out_of_range;
      rewrite ?H1, ?H2, ?H1', ?H2', ?Hnum; try exact Hidx.
    split; reflexivity.
Qed.

Lemma render_result_independent_of_history_witness :
  fst (get_page 0 (Some (306, 792)%Q) None true
         (run [OpGetPagePpmForCrop 0;
               OpGetPage 0 None (Some (fitz.mkPoint 0 0, 1, 1)) true;
               OpGetPage 5 None None true]
            Example.with_a))
  = fst (get_page 0 (Some (306, 792)%Q) None true Example.with_a)
  /\ fst (get_page_ppm_for_crop 0
            (run [OpGetPagePpmForCrop 0;
                  OpGetPage 0 None (Some (fitz.mkPoint 0 0, 1, 1)) true;
                  OpGetPage 5 None None true]
               Example.with_a))
     = fst (get_page_ppm_for_crop 0 Example.with_a).
Proof.
  apply (render_result_independent_of_history Example.with_a
           [OpGetPagePpmForCrop 0;
            OpGetPage 0 None (Some (fitz.mkPoint 0 0, 1, 1)) true;
            OpGetPage 5 None None true]
           0 (Some (306, 792)%Q) true).
  - exact example_with_a_opened.
  - repeat constructor.
Defined.

(** ** The geometry of [get_page] *)

Lemma fit_scale_spec_plain_min (W H Vw Vh : Q) :
  (fit_scale_spec W H Vw Vh == Qmin (Vw / W) (Vh / H))%Q.
Proof.
  unfold fit_scale_spec.
  destruct (Qeq_bool (Qmin 1 (Qmin (Vw / W) (Vh / H))) 1) eqn:E; [reflexivity|].
  apply Qeq_bool_neq in E.
  destruct (Q.min_spec 1 (Qmin (Vw / W) (Vh / H))) as [[_ Hmin]|[_ Hmin]].
  - contradiction.
  - exact Hmin.
Qed.

(** X12.  The floor 1 of line 133 never shows: for a page of positive size
    and any viewport, [zoom_0] is the smaller of the two quotients [Vw/W]
    and [Vh/H], below or above 1 alike; so it is at most each quotient, and
    when both quotients are at least 1 the page is enlarged, not kept at
    scale 1. *)
Theorem zoom_0_is_plain_min (rect : fitz.Rect) (W H Vw Vh : Q) :
  (fitz.width rect == W)%Q -> (fitz.height rect == H)%Q ->
  (0 < W)%Q -> (0 < H)%Q ->
  exists z,
    zoom_0 (Some (Vw, Vh)) rect = Return z
    /\ (z == Qmin (Vw / W) (Vh / H))%Q
    /\ (z <= Vw / W)%Q
    /\ (z <= Vh / H)%Q
    /\ ((1 <= Vw / W)%Q -> (1 <= Vh / H)%Q -> (1 <= z)%Q).
Proof.
  intros HW HH HWpos HHpos.
  destruct (zoom_0_viewport rect W H Vw Vh HW HH HWpos HHpos) as (z & Hz & Hspec).
  rewrite fit_scale_spec_plain_min in Hspec.
  exists z. split; [exact Hz|]. split; [exact Hspec|].
  split; [rewrite Hspec; apply Q.le_min_l|].
  split; [rewrite Hspec; apply Q.le_min_r|].
  intros Ha Hb. rewrite Hspec. now apply Q.min_glb.
Qed.

(** The card page (200 by 100) in an 800 by 300 viewport is enlarged three
    times. *)
Lemma zoom_0_is_plain_min_witness :
  exists z,
    zoom_0 (Some (800, 300)%Q) (fitz.page_rect Example.card) = Return z
    /\ (z == Qmin (800 / 200) (300 / 100))%Q
    /\ (z <= 800 / 200)%Q
    /\ (z <= 300 / 100)%Q
    /\ ((1 <= 800 / 200)%Q -> (1 <= 300 / 100)%Q -> (1 <= z)%Q).
Proof.
  apply (zoom_0_is_plain_min (fitz.page_rect Example.card) 200 100 800 300);
    reflexivity.
Defined.

Lemma clamp_inside (lo hi v : Q) : (lo <= v <= hi)%Q -> (clamp lo hi v == v)%Q.
Proof.
  intros [Hlo Hhi]. unfold clamp.
  rewrite (Q.max_r lo v Hlo). now apply Q.min_r.
Qed.

Lemma clamp_above (lo hi v : Q) :
  (lo <= hi)%Q -> (hi <= v)%Q -> (clamp lo hi v == hi)%Q.
Proof.
  intros Hle Hv. unfold clamp. apply Q.min_l.
  apply Qle_trans with v; [exact Hv|apply Q.le_max_r].
Qed.

Lemma clamp_below (lo hi v : Q) :
  (lo <= hi)%Q -> (v <= lo)%Q -> (clamp lo hi v == lo)%Q.
Proof.
  intros Hle Hv. unfold clamp.
  rewrite (Q.max_l lo v Hv). now apply Q.min_r.
Qed.

Lemma half_two_quarters (W : Q) : (W / 2 == W / 4 + W / 4)%Q.
Proof. field. Qed.

Lemma quarter_nonneg (W : Q) : (0 <= W)%Q -> (0 <= W / 4)%Q.
Proof. intros HW. apply Qle_shift_div_l; [reflexivity|]. now rewrite Qmult_0_l. Qed.

(** X13.  For a page whose rectangle is [(0, 0, W, H)], the clip rectangle
    of zoom mode lies within the page, whatever the previous top-left and
    the arrow directions. *)
Theorem zoom_window_inside_page (W H : Q) (zoom : fitz.Point * Z * Z) :
  (0 <= W)%Q -> (0 <= H)%Q ->
  let clip := page_clip (fitz.mkRect 0 0 W H) (Some zoom) in
  (0 <= fitz.x0 clip)%Q /\ (fitz.x0 clip <= fitz.x1 clip)%Q /\ (fitz.x1 clip <= W)%Q
  /\ (0 <= fitz.y0 clip)%Q /\ (fitz.y0 clip <= fitz.y1 clip)%Q /\ (fitz.y1 clip <= H)%Q.
Proof.
  intros HW HH clip. destruct zoom as [[old_tl dx] dy].
  pose proof (width_at_origin W H HW) as Hw.
  pose proof (height_at_origin W H HH) as Hh.
  pose proof (zoom_tl_x (fitz.mkRect 0 0 W H) old_tl dx dy W Hw) as Hx.
  pose proof (zoom_tl_y (fitz.mkRect 0 0 W H) old_tl dx dy H Hh) as Hy.
  pose proof (clamp_bounds 0 (W / 2)
                (fitz.x old_tl + inject_Z dx * (W / 4)) (half_nonneg W HW)) as [Hx0 Hx1].
  pose proof (clamp_bounds 0 (H / 2)
                (fitz.y old_tl + inject_Z dy * (H / 4)) (half_nonneg H HH)) as [Hy0 Hy1].
  rewrite <- Hx in Hx0, Hx1. rewrite <- Hy in Hy0, Hy1.
  pose proof (half_nonneg W HW) as HW2. pose proof (half_nonneg H HH) as HH2.
  pose proof (half_two_quarters W) as HWq. pose proof (half_two_quarters H) as HHq.
  assert (HWsum : (W == W / 2 + W / 2)%Q) by field.
  assert (HHsum : (H == H / 2 + H / 2)%Q) by field.
  unfold clip, page_clip, fitz.Rect_at. cbn [fitz.x0 fitz.x1 fitz.y0 fitz.y1].
  rewrite Hw, Hh.
  set (tx := fitz.x (zoom_tl (fitz.mkRect 0 0 W H) (old_tl, dx, dy))) in *.
  set (ty := fitz.y (zoom_tl (fitz.mkRect 0 0 W H) (old_tl, dx, dy))) in *.
  generalize dependent (W / 2)%Q. generalize dependent (H / 2)%Q.
  intros h2 _ Hy1 HH2 _ HHsum w2 _ Hx1 HW2 _ HWsum.
  repeat split; lra.
Qed.

Lemma zoom_window_inside_page_witness :
  let clip := page_clip (fitz.mkRect 0 0 200 100)
                (Some (fitz.mkPoint 500 (-7), 1, -1)) in
  (0 <= fitz.x0 clip)%Q /\ (fitz.x0 clip <= fitz.x1 clip)%Q
  /\ (fitz.x1 clip <= 200)%Q
  /\ (0 <= fitz.y0 clip)%Q /\ (fitz.y0 clip <= fitz.y1 clip)%Q
  /\ (fitz.y1 clip <= 100)%Q.
Proof.
  apply (zoom_window_inside_page 200 100 (fitz.mkPoint 500 (-7), 1, -1));
    discriminate.
Defined.

Lemma clamp_ge (lo hi v bound : Q) :
  (bound <= hi)%Q -> (bound <= v)%Q -> (bound <= clamp lo hi v)%Q.
Proof.
  intros Hhi Hv. unfold clamp. apply Q.min_glb; [exact Hhi|].
  apply Qle_trans with v; [exact Hv|apply Q.le_max_r].
Qed.

Lemma clamp_le (lo hi v bound : Q) :
  (lo <= bound)%Q -> (v <= bound)%Q -> (clamp lo hi v <= bound)%Q.
Proof.
  intros Hlo Hv. unfold clamp.
  apply Qle_trans with (Qmax lo v); [apply Q.le_min_r|now apply Q.max_lub].
Qed.

(** X14.  Zoom mode without an arrow key is stationary: a previous top-left
    that lies in the range of the clamp, [0 <= x <= W/2] and
    [0 <= y <= H/2], is returned unchanged. *)
Theorem zoom_without_arrow_stays (rect : fitz.Rect) (old_tl : fitz.Point) :
  (0 <= fitz.x old_tl <= fitz.width rect / 2)%Q ->
  (0 <= fitz.y old_tl <= fitz.height rect / 2)%Q ->
  (fitz.x (zoom_tl rect (old_tl, 0%Z, 0%Z)) == fitz.x old_tl)%Q
  /\ (fitz.y (zoom_tl rect (old_tl, 0%Z, 0%Z)) == fitz.y old_tl)%Q
  /\ (fitz.x0 (page_clip rect (Some (old_tl, 0%Z, 0%Z))) == fitz.x old_tl)%Q
  /\ (fitz.y0 (page_clip rect (Some (old_tl, 0%Z, 0%Z))) == fitz.y old_tl)%Q.
Proof.
  intros Hx Hy.
  assert (Hnewx : (fitz.x (zoom_tl rect (old_tl, 0%Z, 0%Z)) == fitz.x old_tl)%Q).
  { rewrite (zoom_tl_x rect old_tl 0%Z 0%Z (fitz.width rect)) by reflexivity.
    change (inject_Z 0) with 0%Q.
    assert (Hv : (fitz.x old_tl + 0 * (fitz.width rect / 4) == fitz.x old_tl)%Q)
      by ring.
    rewrite clamp_inside; [exact Hv|now rewrite Hv]. }
  assert (Hnewy : (fitz.y (zoom_tl rect (old_tl, 0%Z, 0%Z)) == fitz.y old_tl)%Q).
  { rewrite (zoom_tl_y rect old_tl 0%Z 0%Z (fitz.height rect)) by reflexivity.
    change (inject_Z 0) with 0%Q.
    assert (Hv : (fitz.y old_tl + 0 * (fitz.height rect / 4) == fitz.y old_tl)%Q)
      by ring.
    rewrite clamp_inside; [exact Hv|now rewrite Hv]. }
  repeat split; assumption.
Qed.

Lemma zoom_without_arrow_stays_witness :
  (fitz.x (zoom_tl (fitz.page_rect Example.card) (fitz.mkPoint 30 50, 0%Z, 0%Z)) == 30)%Q
  /\ (fitz.y (zoom_tl (fitz.page_rect Example.card) (fitz.mkPoint 30 50, 0%Z, 0%Z)) == 50)%Q
  /\ (fitz.x0 (page_clip (fitz.page_rect Example.card)
                 (Some (fitz.mkPoint 30 50, 0%Z, 0%Z))) == 30)%Q
  /\ (fitz.y0 (page_clip (fitz.page_rect Example.card)
                 (Some (fitz.mkPoint 30 50, 0%Z, 0%Z))) == 50)%Q.
Proof.
  apply (zoom_without_arrow_stays (fitz.page_rect Example.card) (fitz.mkPoint 30 50));
    split; discriminate.
Defined.

(** X15.  Two presses of the same arrow key reach the edge: from a
    top-left with [x >= 0], two steps to the right end at [x = W/2]; from one
    with [x <= W/2], two steps to the left end at [x = 0]; whatever the
    vertical directions of the two steps. *)
Theorem zoom_two_steps_reach_edge (rect : fitz.Rect) (old_tl : fitz.Point)
    (dy dy' : Z) :
  ((0 <= fitz.x old_tl)%Q ->
   (fitz.x (zoom_tl rect (zoom_tl rect (old_tl, 1%Z, dy), 1%Z, dy'))
    == fitz.width rect / 2)%Q)
  /\ ((fitz.x old_tl <= fitz.width rect / 2)%Q ->
      (fitz.x (zoom_tl rect (zoom_tl rect (old_tl, (-1)%Z, dy), (-1)%Z, dy')) == 0)%Q).
Proof.
  pose proof (half_nonneg _ (width_nonneg rect)) as Hw2.
  pose proof (quarter_nonneg _ (width_nonneg rect)) as Hq.
  pose proof (half_two_quarters (fitz.width rect)) as Hhalf.
  split; intros Hold.
  - rewrite (zoom_tl_x rect _ 1 dy' (fitz.width rect)) by reflexivity.
    apply clamp_above; [exact Hw2|].
    assert (Hfirst : (fitz.width rect / 4 <= fitz.x (zoom_tl rect (old_tl, 1%Z, dy)))%Q).
    { rewrite (zoom_tl_x rect old_tl 1 dy (fitz.width rect)) by reflexivity.
      change (inject_Z 1) with 1%Q. apply clamp_ge.
      - rewrite Hhalf. rewrite <- (Qplus_0_r (fitz.width rect / 4)) at 1.
        now apply Qplus_le_compat; [apply Qle_refl|].
      - rewrite Qmult_1_l. rewrite <- (Qplus_0_l (fitz.width rect / 4)) at 1.
        now apply Qplus_le_compat; [|apply Qle_refl]. }
    change (inject_Z 1) with 1%Q. rewrite Qmult_1_l, Hhalf.
    now apply Qplus_le_compat; [|apply Qle_refl].
  - rewrite (zoom_tl_x rect _ (-1) dy' (fitz.width rect)) by reflexivity.
    apply clamp_below; [exact Hw2|].
    assert (Hfirst : (fitz.x (zoom_tl rect (old_tl, (-1)%Z, dy)) <= fitz.width rect / 4)%Q).
    { rewrite (zoom_tl_x rect old_tl (-1) dy (fitz.width rect)) by reflexivity.
      change (inject_Z (-1)) with (-1)%Q. apply clamp_le; [exact Hq|].
      rewrite Hhalf in Hold. lra. }
    change (inject_Z (-1)) with (-1)%Q. lra.
Qed.

Lemma zoom_two_steps_reach_edge_witness :
  (fitz.x (zoom_tl (fitz.page_rect Example.card)
             (zoom_tl (fitz.page_rect Example.card) (fitz.mkPoint 3 0, 1%Z, 0%Z), 1%Z, 1%Z))
   == fitz.width (fitz.page_rect Example.card) / 2)%Q.
Proof.
  apply (proj1 (zoom_two_steps_reach_edge (fitz.page_rect Example.card)
                  (fitz.mkPoint 3 0) 0 1)).
  discriminate.
Defined.

(** ** The cost of a document *)

Lemma slots_length_bound (N : nat) (new : list (CacheId * nat)) :
  NoDup new ->
  (forall site n, (site, n) ∈ new -> (n < N)%nat) ->
  (length new <= 2 * N)%nat.
Proof.
  intros Hnodup Hbound.
  pose (every := (pair DisplayListCache <$> seq 0 N)
                 ++ (pair CropImageListCache <$> seq 0 N)).
  assert (Hsub : new ⊆+ every).
  { apply NoDup_submseteq; [exact Hnodup|].
    intros [site n] Hin. specialize (Hbound site n Hin).
    unfold every. apply elem_of_app.
    destruct site; [left|right]; apply list_elem_of_fmap; exists n;
      (split; [reflexivity|apply elem_of_seq; lia]). }
  apply submseteq_length in Hsub. unfold every in Hsub.
  rewrite length_app, !length_fmap, !length_seq in Hsub. lia.
Qed.

(** X16.  A document of [N] pages costs at most [2 * N] display lists: over
    any sequence of rendering calls after a successful open,
    [getDisplayList] is called at most once per page and cache. *)
Theorem materializations_bounded
    (st0 st : State) (doc_fname : string) (N : nat) (ops : list Op) :
  open_document doc_fname st0 = (Return N, st) ->
  Forall (fun op => is_render op = true) ops ->
  exists new,
    materialized (world (run ops st)) = new ++ materialized (world st)
    /\ (length new <= 2 * N)%nat.
Proof.
  intros Hopen Hops.
  assert (Hst : once_per_slot N (materialized (world st)) st).
  { destruct (open_document_cases st0 doc_fname)
      as [(doc_pages & _ & H)|[(code & w & H)|(exc & H)]];
      rewrite H in Hopen; try discriminate.
    injection Hopen as <- <-. apply fresh_once_per_slot. }
  destruct (run_render_once_per_slot N _ ops st Hops Hst)
    as (Hop & Hnum & new & Hlog & Hnodup & Hin).
  exists new. split; [exact Hlog|].
  apply slots_length_bound; [exact Hnodup|].
  intros site n Hslot. apply Hin in Hslot as [dl Hdl].
  apply lookup_lt_Some in Hdl. rewrite (opened_lengths _ site Hop) in Hdl. lia.
Qed.

Lemma materializations_bounded_witness :
  exists new,
    materialized
      (world (run [OpGetPage 0 None None true; OpGetPage 0 None None false;
                   OpGetPagePpmForCrop 0; OpGetPage 1 None None true;
                   OpGetPagePpmForCrop 0; OpGetPagePpmForCrop 1;
                   OpGetPage (-1) None None true]
                Example.with_a))
    = new ++ materialized (world Example.with_a)
    /\ (length new <= 2 * 2)%nat.
Proof.
  apply (materializations_bounded Example.boot Example.with_a "a.pdf" 2%nat).
  - reflexivity.
  - repeat constructor.
Defined.
